(** * The per-application instance scaler (go/pkg/scaler)

    A shallow embedding of [simple.go] (the [Simple] scaler: [Assign],
    [Idle], [notifyRequest], [createInstance], [gcLoop]) and of the
    [RuntimeStatus] estimator ([IdleStart], [AssignReturn], [AssignStart]).

    Goroutines started with [go] are returned as a list of pending tasks;
    calls on the platform client are returned as a trace; the clock is an
    input of every function that reads it. *)

From Stdlib Require Import ZArith Lia.
From Stdlib Require Import Floats.PrimFloat Floats.SpecFloat Floats.FloatOps.
From stdpp Require Import gmap strings list.

Local Open Scope Z_scope.

(** ** Machine integers *)

Definition MaxInt64 : Z := 2 ^ 63 - 1.
Definition MinInt64 : Z := - 2 ^ 63.

(** Two's complement wrap-around of [int64] arithmetic. *)
Definition wrap64 (z : Z) : Z := (z + 2 ^ 63) mod 2 ^ 64 - 2 ^ 63.

(** ** package time *)

Module time.

(** A [time.Time] is an instant, in nanoseconds; [zero] is the zero value
    of the type (what a map lookup on a missing key yields). *)
Definition Time : Type := Z.
Definition Duration : Type := Z.

Definition zero : Time := 0.
Definition Second : Duration := 1000000000.

(** [t.Sub(u)]: the difference, saturated to the range of [Duration]. *)
Definition Sub (t u : Time) : Duration :=
  if MaxInt64 <? t - u then MaxInt64
  else if t - u <? MinInt64 then MinInt64
  else t - u.

(** [time.Since(t)] is [time.Now().Sub(t)]; [now] is the clock reading. *)
Definition Since (now t : Time) : Duration := Sub now t.

End time.

(** ** float64

    IEEE 754 binary64, as Rocq's primitive floats; every operation rounds
    to nearest, ties to even, and no two operations are fused. *)

Module float64.

(** [float64(d)] for an integer [d]. *)
Definition of_int64 (z : Z) : float :=
  SF2Prim (binary_normalize prec emax z 0 false).

(** [int64(f)]: truncation toward zero.  Go leaves the result of an
    out-of-range conversion to the implementation; amd64 yields the
    smallest [int64], which is what is modelled here. *)
Definition to_int64 (f : float) : Z :=
  match Prim2SF f with
  | S754_zero _ => 0
  | S754_finite sgn m e =>
      let mag := match e with
                 | Z0 => Z.pos m
                 | Zpos _ => Z.shiftl (Z.pos m) e
                 | Zneg p => Z.shiftr (Z.pos m) (Z.pos p)
                 end in
      let v := if sgn then - mag else mag in
      if (MinInt64 <=? v) && (v <=? MaxInt64) then v else MinInt64
  | _ => MinInt64
  end.

End float64.

(** ** container/list

    A doubly linked list of elements.  An element handle is identified by
    [eid]; [e.list == l] of the Go implementation is membership of that
    identity in [elems l]. *)

Module GoList.

Section WithValue.
Context {A : Type}.

Record Element : Type := mkElement { eid : nat; Value : A }.
Record List : Type := mkList { elems : list Element; fresh : nat }.

Definition New : List := mkList [] 0%nat.

Definition Len (l : List) : Z := Z.of_nat (length (elems l)).

Definition Front (l : List) : option Element := head (elems l).
Definition Back (l : List) : option Element := last (elems l).

Definition PushFront (v : A) (l : List) : List :=
  mkList (mkElement (fresh l) v :: elems l) (S (fresh l)).

Definition PushBack (v : A) (l : List) : List :=
  mkList (elems l ++ [mkElement (fresh l) v]) (S (fresh l)).

Fixpoint unlink (i : nat) (es : list Element) : list Element :=
  match es with
  | [] => []
  | e :: es' => if Nat.eqb (eid e) i then es' else e :: unlink i es'
  end.

(** [l.Remove(e)]: unlinks [e] if it is an element of [l]; afterwards
    [e.list] is nil. *)
Definition Remove (e : Element) (l : List) : List :=
  mkList (unlink (eid e) (elems l)) (fresh l).

Fixpoint successor (i : nat) (es : list Element) : option Element :=
  match es with
  | [] => None
  | e :: es' => if Nat.eqb (eid e) i then head es' else successor i es'
  end.

(** [e.Next()]: the next element, or nil when [e] is the last element or
    [e.list] is nil (the element was removed). *)
Definition Next (l : List) (e : Element) : option Element :=
  successor (eid e) (elems l).

(** Element identities are allocated once. *)
Definition wf (l : List) : Prop :=
  NoDup (map eid (elems l)) /\
  Forall (fun e => (eid e < fresh l)%nat) (elems l).

End WithValue.

Arguments Element : clear implicits.
Arguments List : clear implicits.

End GoList.

(** ** Messages, model and configuration

    The packages [proto], [model] and [config] are imported by the scaler
    and are not among its sources: their types are declared here with the
    fields that the scaler reads and writes.  A message-typed or optional
    field is a pointer in Go, nil being [None]. *)

Module pb.

(** Modelled from the spec: [pb.Meta], the descriptor of an application. *)
Record Meta : Type := mkMeta {
  Key : string;
  Runtime : string;
  TimeoutInSecs : Z;
  MemoryInMb : Z }.

(** Modelled from the spec: [pb.ResourceConfig], the memory of a slot. *)
Record ResourceConfig : Type := mkResourceConfig { MemoryInMegabytes : Z }.

(** Modelled from the spec: [pb.Assignment]. *)
Record Assignment : Type := mkAssignment {
  RequestId : string;
  MetaKey : string;
  InstanceId : string }.

(** Modelled from the spec: [pb.Status], of which the scaler uses [Ok]. *)
Inductive Status : Type := Status_Ok.

(** Modelled from the spec: [pb.AssignRequest]. *)
Record AssignRequest : Type := mkAssignRequest {
  AssignRequest_RequestId : string;
  MetaData : option Meta }.

(** Modelled from the spec: [pb.AssignReply]. *)
Record AssignReply : Type := mkAssignReply {
  AssignReply_Status : Status;
  AssignReply_Assigment : option Assignment;
  AssignReply_ErrorMessage : option string }.

(** Modelled from the spec: [pb.Result], of which the scaler reads
    [NeedDestroy]. *)
Record Result : Type := mkResult { NeedDestroy : option bool }.

(** Modelled from the spec: [pb.IdleRequest]. *)
Record IdleRequest : Type := mkIdleRequest {
  Assigment : option Assignment;
  Result_ : option Result }.

(** Modelled from the spec: [pb.IdleReply]. *)
Record IdleReply : Type := mkIdleReply {
  IdleReply_Status : Status;
  IdleReply_ErrorMessage : option string }.

End pb.

Module model.

(** Modelled from the spec: [model.Slot], the resource handle of the
    platform. *)
Record Slot : Type := mkSlot {
  Slot_Id : string;
  Slot_ResourceConfig : pb.ResourceConfig }.

(** Modelled from the spec: [model.Instance]; [Busy] and [LastIdleTime] are
    the two fields that the scaler writes. *)
Record Instance : Type := mkInstance {
  Id : string;
  Slot_ : Slot;
  Meta : pb.Meta;
  InitDurationInMs : Z;
  Busy : bool;
  LastIdleTime : time.Time }.

(** The zero value of the type. *)
Definition zero : Instance :=
  mkInstance "" (mkSlot "" (pb.mkResourceConfig 0)) (pb.mkMeta "" "" 0 0) 0 false time.zero.

Definition with_Busy (b : bool) (i : Instance) : Instance :=
  mkInstance (Id i) (Slot_ i) (Meta i) (InitDurationInMs i) b (LastIdleTime i).

Definition with_LastIdleTime (t : time.Time) (i : Instance) : Instance :=
  mkInstance (Id i) (Slot_ i) (Meta i) (InitDurationInMs i) (Busy i) t.

End model.

Module config.

(** Modelled from the spec: [config.Config], the recognised options. *)
Record Config : Type := mkConfig {
  ClientAddr : string;
  GcInterval : time.Duration;
  IdleDurationBeforeGC : time.Duration }.

End config.

(** gRPC status codes and [context] errors returned to the caller. *)
Module codes.

Inductive Code : Type := InvalidArgument | NotFound | Canceled | DeadlineExceeded.

End codes.

Record error : Type := Errorf { code : codes.Code; message : string }.

(** A [context.Context], reduced to its timeout. *)
Record Context : Type := mkContext { timeout : option time.Duration }.

Definition Background : Context := mkContext None.

(** How a call ends: it returns, it panics (a nil dereference, which ends
    the process when it happens in a goroutine), it blocks for ever on a
    channel, or the model ran out of fuel. *)
Inductive outcome (A : Type) : Type :=
| Returns (a : A)
| Panics
| Blocks
| OutOfFuel.

Arguments Returns {A} a.
Arguments Panics {A}.
Arguments Blocks {A}.
Arguments OutOfFuel {A}.

(** ** Pointers, channels, goroutines and platform calls *)

(** A [*model2.Instance]: an address in the instance store. *)
Definition ptr : Type := nat.

(** A [chan *model2.Instance] of capacity one: an address in the channel
    store, whose cell is the buffer. *)
Definition chan : Type := nat.

(** The reason handed to [DestroySLot]: a literal, or the text that
    [gcLoop] formats from the observed and the configured duration. *)
Inductive Reason : Type :=
| reason_text (text : string)
| reason_idle (idleDuration configured : time.Duration).

(** A goroutine started by a [go] statement, with what its closure
    captured. *)
Inductive Go : Type :=
| go_AssignStart (timeStamp : time.Time)
| go_AssignReturn (requestId : string)
| go_IdleStart (assigment : option pb.Assignment)
| go_createInstance (requestMeta : option pb.Meta) (requestId : string)
| go_notifyRequest (instance : ptr)
| go_gc_deleteSlot (idleDuration : time.Duration) (instance : ptr)
| go_CompareAndSwap_creatingDuration (new : Z).

Definition is_createInstance (g : Go) : bool :=
  match g with
  | go_createInstance _ _ => true
  | _ => false
  end.

(** A call on the platform client. *)
Inductive PlatformCall : Type :=
| call_CreateSlot (requestId : string) (resourceConfig : pb.ResourceConfig)
| call_Init (requestId instanceId : string) (slot : model.Slot) (meta : pb.Meta)
| call_DestroySLot (ctx : Context) (requestId slotId : string) (reason : Reason).

(** Modelled from the spec: the platform client interface
    ([platform_client2.Client] is not among the sources), as far as
    [createInstance] depends on its answers; [inl] is the error.
    [DestroySLot] returns an error that the scaler only logs. *)
Class Client : Type := {
  CreateSlot : string -> pb.ResourceConfig -> string + model.Slot;
  Init : string -> string -> model.Slot -> pb.Meta -> string + model.Instance }.

(** ** runtimeStatus.go *)

Record RuntimeStatus : Type := mkRuntimeStatus {
  requestDuration : gmap string time.Time;
  requestCostTime : time.Duration;
  rctRate : float;
  requestInstance : GoList.List time.Time;
  maxRequestNum : Z }.

(** The [float64] constant [0.9], the value that [NewRuntimeStatus] gives to
    [rctRate] (in [runtimeStatus.go] as a literal; the variant of the file
    that carries [AssignStart] reads it from [config.DefaultConfig.RctRate],
    which the spec gives as 0.9 too). *)
Definition DefaultRctRate : float := 0x1.ccccccccccccdp-1%float.

Definition NewRuntimeStatus : RuntimeStatus :=
  mkRuntimeStatus ∅ 0 DefaultRctRate GoList.New 0.

Definition AssignReturn (now : time.Time) (requestId : string)
    (r : RuntimeStatus) : RuntimeStatus :=
  mkRuntimeStatus (<[requestId := now]> (requestDuration r))
    (requestCostTime r) (rctRate r) (requestInstance r) (maxRequestNum r).

(** [time.Duration(rctRate*float64(requestCostTime) + (1-rctRate)*float64(duration))] *)
Definition smooth (rate : float) (costTime duration : time.Duration) : time.Duration :=
  float64.to_int64
    (PrimFloat.add
       (PrimFloat.mul rate (float64.of_int64 costTime))
       (PrimFloat.mul (PrimFloat.sub 1%float rate) (float64.of_int64 duration))).

Definition IdleStart (now : time.Time) (requestId : string)
    (r : RuntimeStatus) : RuntimeStatus :=
  let duration :=
    time.Since now (default time.zero (requestDuration r !! requestId)) in
  let costTime :=
    if requestCostTime r =? 0 then duration
    else smooth (rctRate r) (requestCostTime r) duration in
  mkRuntimeStatus (requestDuration r) costTime (rctRate r)
    (requestInstance r) (maxRequestNum r).

(** The goroutine that [Idle] starts on entry,
    [s.runtimeStatus.IdleStart(request.Assigment.RequestId)]: reading
    [RequestId] through a nil [Assigment] panics. *)
Definition go_IdleStart_run (now : time.Time) (assigment : option pb.Assignment)
    (r : RuntimeStatus) : outcome RuntimeStatus :=
  match assigment with
  | Some a => Returns (IdleStart now (pb.RequestId a) r)
  | None => Panics
  end.

Definition GetRequestCostTime (r : RuntimeStatus) : time.Duration :=
  requestCostTime r.

(** A completed request [(requestId, returned, idled)]: [AssignReturn] runs
    at instant [returned] and [IdleStart] at instant [idled]. *)
Definition serve (r : RuntimeStatus) (q : string * time.Time * time.Time)
    : RuntimeStatus :=
  let '(requestId, returned, idled) := q in
  IdleStart idled requestId (AssignReturn returned requestId r).

Definition serve_all (qs : list (string * time.Time * time.Time))
    (r : RuntimeStatus) : RuntimeStatus :=
  fold_left serve qs r.

(** The duration that [IdleStart] measures for a completed request. *)
Definition measured (q : string * time.Time * time.Time) : time.Duration :=
  let '(_, returned, idled) := q in time.Since idled returned.

(** The scan of [AssignStart]:
    [for element := Front(); element.Value != timeStamp; element = element.Next()].
    [element] is [None] for nil, and reading [element.Value] then panics.
    [clock k] is the reading of the clock in the [k]-th round. *)
Fixpoint AssignStart_scan (fuel : nat) (clock : nat -> time.Time)
    (costTime : time.Duration) (timeStamp : time.Time)
    (element : option (GoList.Element time.Time))
    (l : GoList.List time.Time) : outcome (GoList.List time.Time) :=
  match fuel with
  | O => OutOfFuel
  | S fuel' =>
      match element with
      | None => Panics
      | Some e =>
          if GoList.Value e =? timeStamp then Returns l
          else
            let elemTimeStamp := GoList.Value e in
            let l' :=
              if costTime <? time.Since (clock O) elemTimeStamp
              then GoList.Remove e l else l in
            AssignStart_scan fuel' (fun k => clock (S k)) costTime timeStamp
              (GoList.Next l' e) l'
      end
  end.

Definition AssignStart (clock : nat -> time.Time) (timeStamp : time.Time)
    (r : RuntimeStatus) : outcome RuntimeStatus :=
  let costTime := GetRequestCostTime r in
  let l := GoList.PushBack timeStamp (requestInstance r) in
  match AssignStart_scan (S (length (GoList.elems l))) clock costTime timeStamp
          (GoList.Front l) l with
  | Returns l' =>
      let requestNum := GoList.Len l' in
      Returns (mkRuntimeStatus (requestDuration r) (requestCostTime r) (rctRate r) l'
                 (if maxRequestNum r <? requestNum then requestNum
                  else maxRequestNum r))
  | Panics => Panics
  | Blocks => Blocks
  | OutOfFuel => OutOfFuel
  end.

Definition getMaxRequestBNum (r : RuntimeStatus) : Z := maxRequestNum r.

(** The scan of [getCurrentRequestBNum]:
    [for element := Front(); element != nil; element = element.Next()]. *)
Fixpoint getCurrentRequestBNum_scan (fuel : nat) (clock : nat -> time.Time)
    (costTime : time.Duration) (element : option (GoList.Element time.Time))
    (l : GoList.List time.Time) : outcome (GoList.List time.Time) :=
  match fuel with
  | O => OutOfFuel
  | S fuel' =>
      match element with
      | None => Returns l
      | Some e =>
          let l' :=
            if costTime <? time.Since (clock O) (GoList.Value e)
            then GoList.Remove e l else l in
          getCurrentRequestBNum_scan fuel' (fun k => clock (S k)) costTime
            (GoList.Next l' e) l'
      end
  end.

Definition getCurrentRequestBNum (clock : nat -> time.Time)
    (r : RuntimeStatus) : outcome (RuntimeStatus * Z) :=
  let costTime := GetRequestCostTime r in
  let l := requestInstance r in
  match getCurrentRequestBNum_scan (S (length (GoList.elems l))) clock costTime
          (GoList.Front l) l with
  | Returns l' =>
      let requestNum := GoList.Len l' in
      Returns (mkRuntimeStatus (requestDuration r) (requestCostTime r) (rctRate r) l'
                 (if maxRequestNum r <? requestNum then requestNum
                  else maxRequestNum r), requestNum)
  | Panics => Panics
  | Blocks => Blocks
  | OutOfFuel => OutOfFuel
  end.

(** ** simple.go *)

(** The scaler.  [heap] holds the [model2.Instance] objects that the
    registry, the idle pool and the waiter channels point to; [chans]
    holds the buffers of the waiter channels.  The two mutexes and the
    wait group carry no data. *)
Record Simple : Type := mkSimple {
  config : config.Config;
  metaData : pb.Meta;
  heap : ptr -> model.Instance;
  next_ptr : ptr;
  chans : chan -> list ptr;
  next_chan : chan;
  instances : gmap string ptr;
  idleInstance : GoList.List ptr;
  longPollingList : GoList.List chan;
  creatingNum : Z;
  runtimeStatus : RuntimeStatus;
  creatingDuration : Z }.

Definition set_heap (h : ptr -> model.Instance) (s : Simple) : Simple :=
  mkSimple (config s) (metaData s) h (next_ptr s) (chans s) (next_chan s)
    (instances s) (idleInstance s) (longPollingList s) (creatingNum s)
    (runtimeStatus s) (creatingDuration s).

Definition set_next_ptr (n : ptr) (s : Simple) : Simple :=
  mkSimple (config s) (metaData s) (heap s) n (chans s) (next_chan s)
    (instances s) (idleInstance s) (longPollingList s) (creatingNum s)
    (runtimeStatus s) (creatingDuration s).

Definition set_chans (c : chan -> list ptr) (s : Simple) : Simple :=
  mkSimple (config s) (metaData s) (heap s) (next_ptr s) c (next_chan s)
    (instances s) (idleInstance s) (longPollingList s) (creatingNum s)
    (runtimeStatus s) (creatingDuration s).

Definition set_next_chan (n : chan) (s : Simple) : Simple :=
  mkSimple (config s) (metaData s) (heap s) (next_ptr s) (chans s) n
    (instances s) (idleInstance s) (longPollingList s) (creatingNum s)
    (runtimeStatus s) (creatingDuration s).

Definition set_instances (m : gmap string ptr) (s : Simple) : Simple :=
  mkSimple (config s) (metaData s) (heap s) (next_ptr s) (chans s) (next_chan s)
    m (idleInstance s) (longPollingList s) (creatingNum s)
    (runtimeStatus s) (creatingDuration s).

Definition set_idleInstance (l : GoList.List ptr) (s : Simple) : Simple :=
  mkSimple (config s) (metaData s) (heap s) (next_ptr s) (chans s) (next_chan s)
    (instances s) l (longPollingList s) (creatingNum s)
    (runtimeStatus s) (creatingDuration s).

Definition set_longPollingList (l : GoList.List chan) (s : Simple) : Simple :=
  mkSimple (config s) (metaData s) (heap s) (next_ptr s) (chans s) (next_chan s)
    (instances s) (idleInstance s) l (creatingNum s)
    (runtimeStatus s) (creatingDuration s).

Definition set_creatingNum (n : Z) (s : Simple) : Simple :=
  mkSimple (config s) (metaData s) (heap s) (next_ptr s) (chans s) (next_chan s)
    (instances s) (idleInstance s) (longPollingList s) n
    (runtimeStatus s) (creatingDuration s).

(** Writing through a pointer: [p.Busy = b], [p.LastIdleTime = t], and the
    allocation of a new object. *)
Definition store (p : ptr) (f : model.Instance -> model.Instance)
    (h : ptr -> model.Instance) : ptr -> model.Instance :=
  fun q => if Nat.eqb q p then f (h q) else h q.

(** [c <- p] on a channel of capacity one: [None] when the buffer is full,
    that is when the send blocks. *)
Definition chan_send (c : chan) (p : ptr) (cs : chan -> list ptr)
    : option (chan -> list ptr) :=
  match cs c with
  | [] => Some (fun d => if Nat.eqb d c then [p] else cs d)
  | _ :: _ => None
  end.

(** [<-c]: [None] when the buffer is empty, that is when the receive is
    not ready. *)
Definition chan_recv (c : chan) (cs : chan -> list ptr)
    : option (ptr * (chan -> list ptr)) :=
  match cs c with
  | [] => None
  | p :: rest => Some (p, fun d => if Nat.eqb d c then rest else cs d)
  end.

Definition New (metaData : pb.Meta) (cfg : config.Config) : Simple :=
  mkSimple cfg metaData (fun _ => model.zero) O (fun _ => []) O ∅ GoList.New
    GoList.New 0 NewRuntimeStatus 0.

Definition notifyRequest (now : time.Time) (instance : ptr) (s : Simple)
    : outcome Simple :=
  match GoList.Front (longPollingList s) with
  | Some element =>
      let longPollingChan := GoList.Value element in
      let s1 := set_longPollingList (GoList.Remove element (longPollingList s)) s in
      match chan_send longPollingChan instance (chans s1) with
      | Some cs => Returns (set_chans cs s1)
      | None => Blocks
      end
  | None =>
      let s1 := set_heap (store instance (model.with_Busy false) (heap s)) s in
      let s2 := set_heap (store instance (model.with_LastIdleTime now) (heap s1)) s1 in
      Returns (set_idleInstance (GoList.PushFront instance (idleInstance s2)) s2)
  end.

(** Where [Assign] stands after its straight-line part: it has returned a
    reply, or it waits in the [select] on its channel and on [ctx.Done()]. *)
Inductive AssignState : Type :=
| Assign_returned (reply : pb.AssignReply)
| Assign_select (longPollingChan : chan).

Definition assignReply (request : pb.AssignRequest) (i : model.Instance)
    : pb.AssignReply :=
  pb.mkAssignReply pb.Status_Ok
    (Some (pb.mkAssignment (pb.AssignRequest_RequestId request)
             (pb.Key (model.Meta i)) (model.Id i)))
    None.

(** [Assign] up to its [return] on an idle hit or up to the [select]. *)
Definition Assign (now : time.Time) (request : pb.AssignRequest) (s : Simple)
    : Simple * AssignState * list Go :=
  match GoList.Front (idleInstance s) with
  | Some element =>
      let instance := GoList.Value element in
      let s1 := set_heap (store instance (model.with_Busy true) (heap s)) s in
      let s2 := set_idleInstance (GoList.Remove element (idleInstance s1)) s1 in
      (s2, Assign_returned (assignReply request (heap s2 instance)),
       [go_AssignStart now; go_AssignReturn (pb.AssignRequest_RequestId request)])
  | None =>
      let longPollingChan := next_chan s in
      let s1 := set_next_chan (S longPollingChan)
                  (set_chans (fun d => if Nat.eqb d longPollingChan then []
                                       else chans s d) s) in
      let s2 := set_longPollingList
                  (GoList.PushBack longPollingChan (longPollingList s1)) s1 in
      (s2, Assign_select longPollingChan,
       go_AssignStart now ::
       (if creatingNum s2 <? GoList.Len (longPollingList s2)
        then [go_createInstance (pb.MetaData request)
                (pb.AssignRequest_RequestId request)]
        else []))
  end.

(** The [select]: the case [instance := <-longPollingChan]; [None] while
    nothing was sent. *)
Definition Assign_recv (request : pb.AssignRequest) (longPollingChan : chan)
    (s : Simple) : option (Simple * pb.AssignReply * list Go) :=
  match chan_recv longPollingChan (chans s) with
  | Some (instance, cs) =>
      let s1 := set_chans cs s in
      let s2 := set_heap (store instance (model.with_Busy true) (heap s1)) s1 in
      Some (s2, assignReply request (heap s2 instance),
            [go_AssignReturn (pb.AssignRequest_RequestId request)])
  | None => None
  end.

(** The [select]: the case [<-ctx.Done()], returning [ctx.Err()]. *)
Definition Assign_Done (request : pb.AssignRequest) (err : error) (s : Simple)
    : Simple * error * list Go :=
  (s, err, [go_AssignReturn (pb.AssignRequest_RequestId request)]).

Definition deleteSlot (ctx : Context) (requestId slotId instanceId metaKey : string)
    (reason : Reason) : list PlatformCall :=
  [call_DestroySLot ctx requestId slotId reason].

(** [request.Result != nil && request.Result.NeedDestroy != nil && *request.Result.NeedDestroy] *)
Definition wantsDestroy (request : pb.IdleRequest) : bool :=
  match pb.Result_ request with
  | Some result => match pb.NeedDestroy result with
                   | Some b => b
                   | None => false
                   end
  | None => false
  end.

(** [Idle] returns the scaler (it writes to none of its fields), its
    result, the goroutines it started, and the platform calls its deferred
    functions made before it returned. *)
Definition Idle (ctx : Context) (request : pb.IdleRequest) (s : Simple)
    : Simple * (error + pb.IdleReply) * list Go * list PlatformCall :=
  let started := [go_IdleStart (pb.Assigment request)] in
  match pb.Assigment request with
  | None =>
      (s, inl (Errorf codes.InvalidArgument "assignment is nil"), started, [])
  | Some assigment =>
      let reply := pb.mkIdleReply pb.Status_Ok None in
      let instanceId := pb.InstanceId assigment in
      let needDestroy := wantsDestroy request in
      let deferred (slotId : string) :=
        if needDestroy
        then deleteSlot ctx (pb.RequestId assigment) slotId instanceId
               (pb.MetaKey assigment) (reason_text "bad instance")
        else [] in
      match instances s !! instanceId with
      | Some instance =>
          let slotId := model.Slot_Id (model.Slot_ (heap s instance)) in
          if needDestroy then (s, inr reply, started, deferred slotId)
          else if negb (model.Busy (heap s instance))
          then (s, inr reply, started, deferred slotId)
          else (s, inr (pb.mkIdleReply pb.Status_Ok None),
                started ++ [go_notifyRequest instance], deferred slotId)
      | None =>
          (s, inl (Errorf codes.NotFound
                     ("request id " +:+ pb.RequestId assigment +:+
                      ", instance " +:+ instanceId +:+ " not found")),
           started, deferred "")
      end
  end.

(** One round of the inner [for] of [gcLoop]: the new scaler, and the
    goroutine started when the round ends in [continue] ([None] when it
    ends in [break]). *)
Definition gcLoop_round (now : time.Time) (s : Simple) : Simple * option Go :=
  match GoList.Back (idleInstance s) with
  | Some element =>
      let instance := GoList.Value element in
      let idleDuration := time.Since now (model.LastIdleTime (heap s instance)) in
      if config.IdleDurationBeforeGC (config s) <? idleDuration then
        let s1 := set_idleInstance (GoList.Remove element (idleInstance s)) s in
        let s2 := set_instances (delete (model.Id (heap s1 instance)) (instances s1)) s1 in
        (s2, Some (go_gc_deleteSlot idleDuration instance))
      else (s, None)
  | None => (s, None)
  end.

(** The inner [for] of [gcLoop], run at one tick of the ticker. *)
Fixpoint gcLoop_rounds (fuel : nat) (clock : nat -> time.Time) (s : Simple)
    : outcome (Simple * list Go) :=
  match fuel with
  | O => OutOfFuel
  | S fuel' =>
      match gcLoop_round (clock O) s with
      | (s', Some g) =>
          match gcLoop_rounds fuel' (fun k => clock (S k)) s' with
          | Returns (s'', gs) => Returns (s'', g :: gs)
          | other => other
          end
      | (s', None) => Returns (s', [])
      end
  end.

Definition gcLoop_tick (clock : nat -> time.Time) (s : Simple)
    : outcome (Simple * list Go) :=
  gcLoop_rounds (S (length (GoList.elems (idleInstance s)))) clock s.


Record Stats_ : Type := mkStats { TotalInstance : Z; TotalIdleInstance : Z }.

Definition Stats (s : Simple) : Stats_ :=
  mkStats (Z.of_nat (size (instances s))) (GoList.Len (idleInstance s)).

(** [createInstance]; [creatingTime] and [endTime] are the two readings of
    the clock, [instanceId] is the value of [uuid.New().String()]. *)
Definition createInstance `{Client} (creatingTime endTime : time.Time)
    (instanceId : string) (requestMeta : option pb.Meta) (requestId : string)
    (s : Simple) : outcome (Simple * list PlatformCall * list Go) :=
  let s1 := set_creatingNum (wrap64 (creatingNum s + 1)) s in
  let deferred (s' : Simple) := set_creatingNum (wrap64 (creatingNum s' - 1)) s' in
  match requestMeta with
  | None => Panics
  | Some requestMeta =>
      let resourceConfig := pb.mkResourceConfig (pb.MemoryInMb requestMeta) in
      match CreateSlot requestId resourceConfig with
      | inl _ =>
          Returns (deferred s1, [call_CreateSlot requestId resourceConfig], [])
      | inr slot =>
          let meta := pb.mkMeta (pb.Key requestMeta) (pb.Runtime requestMeta)
                        (pb.TimeoutInSecs requestMeta) 0 in
          let calls := [call_CreateSlot requestId resourceConfig;
                        call_Init requestId instanceId slot meta] in
          match Init requestId instanceId slot meta with
          | inl _ => Returns (deferred s1, calls, [])
          | inr created =>
              let instance := next_ptr s1 in
              let s2 := set_next_ptr (S instance)
                          (set_heap (fun q => if Nat.eqb q instance then created
                                              else heap s1 q) s1) in
              let s3 := set_instances
                          (<[model.Id (heap s2 instance) := instance]> (instances s2)) s2 in
              Returns (deferred s3, calls,
                       [go_notifyRequest instance;
                        go_CompareAndSwap_creatingDuration
                          (time.Since endTime creatingTime)])
          end
      end
  end.

(** Every registered instance is an allocated object whose [Meta] carries
    no memory size. *)
Definition registered_without_memory (s : Simple) : Prop :=
  forall id p, instances s !! id = Some p ->
    (p < next_ptr s)%nat /\ pb.MemoryInMb (model.Meta (heap s p)) = 0.


(** ** The rest of simple.go and runtimeStatus.go *)

Definition set_runtimeStatus (r : RuntimeStatus) (s : Simple) : Simple :=
  mkSimple (config s) (metaData s) (heap s) (next_ptr s) (chans s) (next_chan s)
    (instances s) (idleInstance s) (longPollingList s) (creatingNum s)
    r (creatingDuration s).

Definition set_creatingDuration (d : Z) (s : Simple) : Simple :=
  mkSimple (config s) (metaData s) (heap s) (next_ptr s) (chans s) (next_chan s)
    (instances s) (idleInstance s) (longPollingList s) (creatingNum s)
    (runtimeStatus s) d.

(** [atomic.CompareAndSwapInt64(&s.creatingDuration, 0, new)], the goroutine
    that ends a successful [createInstance]. *)
Definition CompareAndSwap_creatingDuration (new : Z) (s : Simple) : Simple :=
  if creatingDuration s =? 0 then set_creatingDuration new s else s.

Definition CheckLive (s : Simple) : bool := true.

Definition Clear (rate : float) (s : Simple) : Simple := s.

(** A run of [AssignReturn] calls, [(requestId, now)] each, oldest first. *)
Definition AssignReturn_all (events : list (string * time.Time))
    (r : RuntimeStatus) : RuntimeStatus :=
  fold_left (fun r ev => AssignReturn (snd ev) (fst ev) r) events r.

(** The instant of the latest event of [events] for [requestId]. *)
Fixpoint latest (requestId : string) (events : list (string * time.Time))
    (before : option time.Time) : option time.Time :=
  match events with
  | [] => before
  | ev :: events' =>
      latest requestId events'
        (if String.eqb (fst ev) requestId then Some (snd ev) else before)
  end.

(** The first value of [ds] that is not zero, and [0] when there is none:
    what a run of compare-and-swap from zero leaves in a cell that holds 0. *)
Fixpoint first_nonzero (ds : list Z) : Z :=
  match ds with
  | [] => 0
  | d :: ds' => if d =? 0 then first_nonzero ds' else d
  end.

(** The waiter channels that are queued are pairwise distinct, allocated,
    and empty. *)
Definition waiters_ready (s : Simple) : Prop :=
  NoDup (map GoList.Value (GoList.elems (longPollingList s))) /\
  Forall (fun e => chans s (GoList.Value e) = [] /\
                   (GoList.Value e < next_chan s)%nat)
    (GoList.elems (longPollingList s)).
(** ** A small scaler for the examples *)

Definition demo_config : config.Config :=
  config.mkConfig "127.0.0.1:50051" (10 * time.Second) (300 * time.Second).

Definition demo_meta : pb.Meta := pb.mkMeta "app-1" "python" 30 128.

Definition demo_instance (busy : bool) (lastIdle : time.Time) : model.Instance :=
  model.mkInstance "i-1" (model.mkSlot "slot-1" (pb.mkResourceConfig 128))
    (pb.mkMeta "app-1" "python" 30 0) 5 busy lastIdle.

(** One registered instance, busy, and an empty idle pool. *)
Definition demo_busy : Simple :=
  set_instances {[ "i-1" := O ]}
    (set_next_ptr 1%nat
       (set_heap (fun _ => demo_instance true 0) (New demo_meta demo_config))).

(** One registered instance, idle since instant 100. *)
Definition demo_warm : Simple :=
  set_idleInstance (GoList.PushFront O GoList.New)
    (set_heap (fun _ => demo_instance false 100) demo_busy).

Definition demo_request (requestId : string) : pb.AssignRequest :=
  pb.mkAssignRequest requestId (Some demo_meta).

(** [demo_busy] after an [Assign] that found no idle instance and waits. *)
Definition demo_waiting : Simple :=
  fst (fst (Assign 50 (demo_request "r2") demo_busy)).

(** A platform client that always succeeds and returns the instance with
    the id, the slot and the meta it was given. *)
Definition demo_client : Client :=
  {| CreateSlot := fun _ resourceConfig => inr (model.mkSlot "slot-2" resourceConfig);
     Init := fun _ instanceId slot meta =>
               inr (model.mkInstance instanceId slot meta 5 false time.zero) |}.

(** An estimator with two in-flight requests, started at instants 1000 and
    1500, and no completed request yet. *)
Definition demo_status : RuntimeStatus :=
  mkRuntimeStatus ∅ 0 DefaultRctRate
    (GoList.PushBack 1500 (GoList.PushBack 1000 GoList.New)) 2.

(** * Properties *)

(** ** container/list *)

Section GoListFacts.
Context {A : Type}.
Implicit Types (l : GoList.List A) (e : GoList.Element A).

Lemma GoList_Remove_Front l e :
  GoList.Front l = Some e ->
  GoList.elems (GoList.Remove e l) = tail (GoList.elems l).
Proof.
  unfold GoList.Front, GoList.Remove. destruct l as [es n]; simpl.
  destruct es as [|x es]; simpl; intros Hx; inversion Hx; subst.
  now rewrite Nat.eqb_refl.
Qed.

Lemma GoList_Len_PushBack v l :
  GoList.Len (GoList.PushBack v l) = GoList.Len l + 1.
Proof.
  unfold GoList.Len, GoList.PushBack; simpl. rewrite length_app; simpl. lia.
Qed.

Lemma GoList_Back_PushBack v l :
  GoList.Back (GoList.PushBack v l) = Some (GoList.mkElement (GoList.fresh l) v).
Proof. unfold GoList.Back, GoList.PushBack; simpl. apply last_snoc. Qed.

Lemma GoList_unlink_absent (i : nat) (es : list (GoList.Element A)) :
  i ∉ map GoList.eid es -> GoList.unlink i es = es.
Proof.
  induction es as [|x es IH]; simpl; intros Hi; [reflexivity|].
  apply not_elem_of_cons in Hi as [Hne Hi].
  destruct (Nat.eqb_spec (GoList.eid x) i) as [Heq|_]; [congruence|].
  now rewrite IH.
Qed.

Lemma GoList_unlink_snoc (es : list (GoList.Element A)) e :
  NoDup (map GoList.eid (es ++ [e])) ->
  GoList.unlink (GoList.eid e) (es ++ [e]) = es.
Proof.
  induction es as [|x es IH]; simpl; intros Hnd.
  - now rewrite Nat.eqb_refl.
  - apply NoDup_cons in Hnd as [Hx Hnd].
    destruct (Nat.eqb_spec (GoList.eid x) (GoList.eid e)) as [Heq|_].
    + exfalso. apply Hx. rewrite map_app, Heq. apply elem_of_app. right.
      simpl. apply list_elem_of_here.
    + now rewrite IH.
Qed.

Lemma GoList_successor_absent (i : nat) (es : list (GoList.Element A)) :
  i ∉ map GoList.eid es -> GoList.successor i es = None.
Proof.
  induction es as [|x es IH]; simpl; intros Hi; [reflexivity|].
  apply not_elem_of_cons in Hi as [Hne Hi].
  destruct (Nat.eqb_spec (GoList.eid x) i) as [Heq|_]; [congruence|].
  now apply IH.
Qed.

(** An element that was removed has no next element. *)
Lemma GoList_Next_removed_head l e :
  GoList.wf l -> GoList.Front l = Some e ->
  GoList.Next (GoList.Remove e l) e = None.
Proof.
  intros [Hnd _] Hf. unfold GoList.Next.
  rewrite (GoList_Remove_Front _ _ Hf).
  unfold GoList.Front in Hf. destruct (GoList.elems l) as [|x es]; simpl in *.
  - discriminate.
  - inversion Hf; subst. apply NoDup_cons in Hnd as [Hx _].
    now apply GoList_successor_absent.
Qed.

Lemma GoList_wf_New : GoList.wf (@GoList.New A).
Proof. split; simpl; constructor. Qed.

Lemma GoList_wf_PushBack v l : GoList.wf l -> GoList.wf (GoList.PushBack v l).
Proof.
  intros [Hnd Hlt]. split; simpl.
  - rewrite map_app. apply NoDup_app. split; [exact Hnd|]. split.
    + intros i Hi Hin. simpl in Hin. apply list_elem_of_singleton in Hin. subst i.
      apply list_elem_of_fmap in Hi as (x & Hx & Hin).
      rewrite Forall_forall in Hlt. specialize (Hlt x Hin). lia.
    + simpl. apply NoDup_singleton.
  - apply Forall_app. split.
    + eapply Forall_impl; [exact Hlt|]. simpl. intros; lia.
    + repeat constructor.
Qed.

Lemma GoList_wf_PushFront v l : GoList.wf l -> GoList.wf (GoList.PushFront v l).
Proof.
  intros [Hnd Hlt]. split; simpl.
  - apply NoDup_cons. split; [|exact Hnd].
    intros Hi. apply list_elem_of_fmap in Hi as (x & Hx & Hin).
    rewrite Forall_forall in Hlt. specialize (Hlt x Hin). lia.
  - constructor; simpl; [lia|].
    eapply Forall_impl; [exact Hlt|]. simpl. intros; lia.
Qed.

End GoListFacts.

(** ** notifyRequest *)

(** C2: an instance handed to [notifyRequest] goes to the oldest waiter when
    there is one: the front of the waiter queue is removed and the instance
    is sent on that waiter's (empty, single-capacity) channel, the idle pool
    and the instance being left as they are.  Otherwise the instance gets
    [Busy = false] and [LastIdleTime = now] and is pushed to the front of
    the idle pool. *)
Theorem notifyRequest_handoff (now : time.Time) (instance : ptr) (s : Simple) :
  (forall waiter,
     GoList.Front (longPollingList s) = Some waiter ->
     chans s (GoList.Value waiter) = [] ->
     exists s',
       notifyRequest now instance s = Returns s' /\
       GoList.elems (longPollingList s') = tail (GoList.elems (longPollingList s)) /\
       chans s' (GoList.Value waiter) = [instance] /\
       idleInstance s' = idleInstance s /\
       heap s' = heap s) /\
  (GoList.Front (longPollingList s) = None ->
     exists s',
       notifyRequest now instance s = Returns s' /\
       model.Busy (heap s' instance) = false /\
       model.LastIdleTime (heap s' instance) = now /\
       GoList.Front (idleInstance s') =
         Some (GoList.mkElement (GoList.fresh (idleInstance s)) instance) /\
       GoList.elems (idleInstance s') =
         GoList.mkElement (GoList.fresh (idleInstance s)) instance
           :: GoList.elems (idleInstance s) /\
       longPollingList s' = longPollingList s /\
       chans s' = chans s).
Proof.
  split.
  - intros waiter Hfront Hempty. unfold notifyRequest. rewrite Hfront.
    unfold chan_send; simpl. rewrite Hempty.
    eexists; split; [reflexivity|]. simpl.
    rewrite Nat.eqb_refl. repeat split.
    now apply GoList_Remove_Front.
  - intros Hfront. unfold notifyRequest. rewrite Hfront.
    eexists; split; [reflexivity|]. simpl. unfold store.
    rewrite Nat.eqb_refl. repeat split.
Qed.

Lemma notifyRequest_handoff_witness :
  (exists s',
     notifyRequest 60 O demo_waiting = Returns s' /\
     GoList.elems (longPollingList s') = [] /\
     chans s' O = [O] /\
     idleInstance s' = idleInstance demo_waiting /\
     heap s' = heap demo_waiting) /\
  (exists s',
     notifyRequest 60 O demo_busy = Returns s' /\
     model.Busy (heap s' O) = false /\
     model.LastIdleTime (heap s' O) = 60 /\
     GoList.Front (idleInstance s') = Some (GoList.mkElement O O) /\
     GoList.elems (idleInstance s') = [GoList.mkElement O O] /\
     longPollingList s' = longPollingList demo_busy /\
     chans s' = chans demo_busy).
Proof.
  split.
  - exact (proj1 (notifyRequest_handoff 60 O demo_waiting)
             (GoList.mkElement O O) eq_refl eq_refl).
  - exact (proj2 (notifyRequest_handoff 60 O demo_busy) eq_refl).
Defined.

(** ** Assign *)

(** C3: an [Assign] that finds the idle pool empty appends a fresh waiter
    channel to the back of the waiter queue and then starts an asynchronous
    [createInstance], for the meta and id of this request, if and only if
    the length of the queue exceeds [creatingNum]; it starts at most one. *)
Theorem Assign_miss_creation (now : time.Time) (request : pb.AssignRequest)
    (s : Simple) :
  GoList.Front (idleInstance s) = None ->
  exists s' longPollingChan started,
    Assign now request s = (s', Assign_select longPollingChan, started) /\
    GoList.elems (longPollingList s') =
      GoList.elems (longPollingList s)
        ++ [GoList.mkElement (GoList.fresh (longPollingList s)) longPollingChan] /\
    chans s' longPollingChan = [] /\
    creatingNum s' = creatingNum s /\
    (go_createInstance (pb.MetaData request) (pb.AssignRequest_RequestId request)
       ∈ started <->
     creatingNum s' < GoList.Len (longPollingList s')) /\
    (forall g, g ∈ started -> is_createInstance g = true ->
       g = go_createInstance (pb.MetaData request) (pb.AssignRequest_RequestId request)) /\
    (length (filter (fun g => is_createInstance g = true) started) <= 1)%nat.
Proof.
  intros Hmiss. unfold Assign. rewrite Hmiss.
  do 3 eexists. split; [reflexivity|]. simpl.
  rewrite Nat.eqb_refl. repeat split.
  - intros Hin. destruct (Z.ltb_spec (creatingNum s)
      (GoList.Len (GoList.PushBack (next_chan s) (longPollingList s)))) as [Hlt|Hge].
    + exact Hlt.
    + apply elem_of_cons in Hin as [Hin|Hin]; [discriminate|].
      now apply elem_of_nil in Hin.
  - intros Hlt. apply Z.ltb_lt in Hlt. rewrite Hlt.
    apply list_elem_of_further, list_elem_of_here.
  - intros g Hin Hg.
    apply elem_of_cons in Hin as [->|Hin]; [discriminate|].
    destruct (_ <? _).
    + now apply list_elem_of_singleton in Hin.
    + now apply elem_of_nil in Hin.
  - destruct (_ <? _); simpl; lia.
Qed.

Lemma Assign_miss_creation_witness :
  exists s' longPollingChan started,
    Assign 50 (demo_request "r2") demo_busy
      = (s', Assign_select longPollingChan, started) /\
    GoList.elems (longPollingList s') =
      GoList.elems (longPollingList demo_busy)
        ++ [GoList.mkElement (GoList.fresh (longPollingList demo_busy)) longPollingChan] /\
    chans s' longPollingChan = [] /\
    creatingNum s' = creatingNum demo_busy /\
    (go_createInstance (pb.MetaData (demo_request "r2"))
       (pb.AssignRequest_RequestId (demo_request "r2")) ∈ started <->
     creatingNum s' < GoList.Len (longPollingList s')) /\
    (forall g, g ∈ started -> is_createInstance g = true ->
       g = go_createInstance (pb.MetaData (demo_request "r2"))
             (pb.AssignRequest_RequestId (demo_request "r2"))) /\
    (length (filter (fun g => is_createInstance g = true) started) <= 1)%nat.
Proof. exact (Assign_miss_creation 50 (demo_request "r2") demo_busy eq_refl). Defined.

(** ** Idle *)

(** The value that [Idle] returns: the [InvalidArgument] error when the
    request has no assignment, the [NotFound] error when the assignment
    names an instance id that the registry does not hold, and the [Ok] reply
    in every other case. *)
Theorem Idle_result (ctx : Context) (request : pb.IdleRequest) (s : Simple) :
  (pb.Assigment request = None ->
     exists msg, snd (fst (fst (Idle ctx request s)))
                 = inl (Errorf codes.InvalidArgument msg)) /\
  (forall assigment,
     pb.Assigment request = Some assigment ->
     instances s !! pb.InstanceId assigment = None ->
     exists msg, snd (fst (fst (Idle ctx request s)))
                 = inl (Errorf codes.NotFound msg)) /\
  (forall assigment instance,
     pb.Assigment request = Some assigment ->
     instances s !! pb.InstanceId assigment = Some instance ->
     snd (fst (fst (Idle ctx request s))) = inr (pb.mkIdleReply pb.Status_Ok None)).
Proof.
  unfold Idle. repeat split.
  - intros ->. eexists; reflexivity.
  - intros assigment -> ->. eexists; reflexivity.
  - intros assigment instance -> ->.
    destruct (wantsDestroy request); [reflexivity|].
    destruct (negb _); reflexivity.
Qed.

Lemma Idle_result_witness :
  (exists msg,
     snd (fst (fst (Idle Background (pb.mkIdleRequest None None) demo_busy)))
     = inl (Errorf codes.InvalidArgument msg)) /\
  (exists msg,
     snd (fst (fst (Idle Background
                      (pb.mkIdleRequest (Some (pb.mkAssignment "r1" "app-1" "i-9")) None)
                      demo_busy)))
     = inl (Errorf codes.NotFound msg)) /\
  snd (fst (fst (Idle Background
                   (pb.mkIdleRequest (Some (pb.mkAssignment "r1" "app-1" "i-1")) None)
                   demo_busy)))
  = inr (pb.mkIdleReply pb.Status_Ok None).
Proof.
  pose proof (Idle_result Background (pb.mkIdleRequest None None) demo_busy) as H1.
  pose proof (Idle_result Background
                (pb.mkIdleRequest (Some (pb.mkAssignment "r1" "app-1" "i-9")) None)
                demo_busy) as H2.
  pose proof (Idle_result Background
                (pb.mkIdleRequest (Some (pb.mkAssignment "r1" "app-1" "i-1")) None)
                demo_busy) as H3.
  split; [|split].
  - exact (proj1 H1 eq_refl).
  - exact (proj1 (proj2 H2) _ eq_refl eq_refl).
  - exact (proj2 (proj2 H3) _ O eq_refl eq_refl).
Defined.

(** The goroutine started by an [Idle] without assignment panics when it
    runs, whatever [Idle] has returned. *)
Remark Idle_nil_assignment_goroutine (ctx : Context) (result : option pb.Result)
    (s : Simple) (now : time.Time) :
  snd (fst (Idle ctx (pb.mkIdleRequest None result) s)) = [go_IdleStart None] /\
  go_IdleStart_run now None (runtimeStatus s) = Panics.
Proof. split; reflexivity. Qed.

(** C6: for a request without assignment [Idle] does return the
    [InvalidArgument] error, but the goroutine that it starts on entry,
    before it tests the assignment, reads [request.Assigment.RequestId]
    through the nil pointer and panics when it runs: the call ends the
    process, and does not fail with a surfaced error as the other two
    outcomes of [Idle] do. *)
Theorem Idle_nil_assignment_panics :
  let request := pb.mkIdleRequest None None in
  Idle Background request demo_busy =
    (demo_busy, inl (Errorf codes.InvalidArgument "assignment is nil"),
     [go_IdleStart None], []) /\
  (forall now, go_IdleStart_run now None (runtimeStatus demo_busy) = Panics) /\
  (exists r,
     go_IdleStart_run 10 (Some (pb.mkAssignment "r1" "app-1" "i-9"))
       (runtimeStatus demo_busy) = Returns r).
Proof.
  simpl. split; [reflexivity|]. split; [intros now; reflexivity|].
  eexists. reflexivity.
Qed.

(** C9: an [Idle] that asks for destruction of an instance id that the
    registry does not hold returns the [NotFound] error, and its deferred
    function has nevertheless called [DestroySLot], with the caller's
    context, the request id of the assignment, the empty slot id and the
    reason "bad instance". *)
Theorem Idle_destroy_unknown (ctx : Context) (request : pb.IdleRequest)
    (assigment : pb.Assignment) (s : Simple) :
  pb.Assigment request = Some assigment ->
  wantsDestroy request = true ->
  instances s !! pb.InstanceId assigment = None ->
  exists msg,
    Idle ctx request s =
      (s, inl (Errorf codes.NotFound msg),
       [go_IdleStart (Some assigment)],
       [call_DestroySLot ctx (pb.RequestId assigment) "" (reason_text "bad instance")]).
Proof.
  intros Ha Hd Hnone. unfold Idle, deleteSlot. rewrite Ha, Hd, Hnone.
  eexists; reflexivity.
Qed.

Lemma Idle_destroy_unknown_witness :
  exists msg,
    Idle Background
      (pb.mkIdleRequest (Some (pb.mkAssignment "r1" "app-1" "i-9"))
         (Some (pb.mkResult (Some true))))
      demo_busy =
      (demo_busy, inl (Errorf codes.NotFound msg),
       [go_IdleStart (Some (pb.mkAssignment "r1" "app-1" "i-9"))],
       [call_DestroySLot Background "r1" "" (reason_text "bad instance")]).
Proof.
  exact (Idle_destroy_unknown Background
           (pb.mkIdleRequest (Some (pb.mkAssignment "r1" "app-1" "i-9"))
              (Some (pb.mkResult (Some true))))
           (pb.mkAssignment "r1" "app-1" "i-9") demo_busy eq_refl eq_refl eq_refl).
Defined.

(** ** Assign, Idle, Assign *)

Lemma store_same (p : ptr) (f : model.Instance -> model.Instance)
    (h : ptr -> model.Instance) :
  store p f h p = f (h p).
Proof. unfold store. now rewrite Nat.eqb_refl. Qed.

(** C5: on a scaler whose idle pool holds exactly one instance, registered
    under its id, and whose waiter queue is empty, [Assign] returns the id
    of that instance; [Idle] for the assignment it returned (without a
    request for destruction) succeeds and starts [notifyRequest] for the
    instance, which puts it back as the only element of the idle pool; and
    the next [Assign] returns the same instance id. *)
Theorem Assign_Idle_Assign (now1 now2 now3 : time.Time) (ctx : Context)
    (request1 request2 : pb.AssignRequest) (result : option pb.Result)
    (element : GoList.Element ptr) (s : Simple) :
  GoList.elems (idleInstance s) = [element] ->
  instances s !! model.Id (heap s (GoList.Value element)) = Some (GoList.Value element) ->
  GoList.Front (longPollingList s) = None ->
  (forall assigment, wantsDestroy (pb.mkIdleRequest assigment result) = false) ->
  let instance := GoList.Value element in
  exists s1 assigment1 started1,
    Assign now1 request1 s =
      (s1, Assign_returned (pb.mkAssignReply pb.Status_Ok (Some assigment1) None),
       started1) /\
    pb.InstanceId assigment1 = model.Id (heap s instance) /\
    GoList.elems (idleInstance s1) = [] /\
    exists started2,
      Idle ctx (pb.mkIdleRequest (Some assigment1) result) s1 =
        (s1, inr (pb.mkIdleReply pb.Status_Ok None), started2, []) /\
      go_notifyRequest instance ∈ started2 /\
      exists s2,
        notifyRequest now2 instance s1 = Returns s2 /\
        map GoList.Value (GoList.elems (idleInstance s2)) = [instance] /\
        exists s3 assigment3 started3,
          Assign now3 request2 s2 =
            (s3, Assign_returned (pb.mkAssignReply pb.Status_Ok (Some assigment3) None),
             started3) /\
          pb.InstanceId assigment3 = pb.InstanceId assigment1.
Proof.
  intros Hpool Hreg Hwait Hkeep instance. subst instance.
  assert (Hfront : GoList.Front (idleInstance s) = Some element)
    by (unfold GoList.Front; now rewrite Hpool).
  assert (Hrem : GoList.Remove element (idleInstance s)
                 = GoList.mkList [] (GoList.fresh (idleInstance s))).
  { unfold GoList.Remove. rewrite Hpool. simpl. now rewrite Nat.eqb_refl. }
  unfold Assign at 1. rewrite Hfront. simpl. rewrite Hrem.
  do 3 eexists. split; [reflexivity|]. simpl.
  rewrite !store_same. simpl.
  split; [reflexivity|]. split; [reflexivity|].
  unfold Idle. simpl. rewrite Hreg, Hkeep. simpl.
  rewrite store_same. simpl.
  eexists. split; [reflexivity|].
  split; [apply list_elem_of_further, list_elem_of_here|].
  unfold notifyRequest. simpl. rewrite Hwait.
  eexists. split; [reflexivity|]. simpl.
  split; [reflexivity|].
  unfold Assign. simpl.
  do 3 eexists. split; [reflexivity|]. simpl.
  now rewrite !store_same.
Qed.

Lemma Assign_Idle_Assign_witness :
  exists s1 assigment1 started1,
    Assign 110 (demo_request "r1") demo_warm =
      (s1, Assign_returned (pb.mkAssignReply pb.Status_Ok (Some assigment1) None),
       started1) /\
    pb.InstanceId assigment1 = "i-1" /\
    GoList.elems (idleInstance s1) = [] /\
    exists started2,
      Idle Background (pb.mkIdleRequest (Some assigment1) None) s1 =
        (s1, inr (pb.mkIdleReply pb.Status_Ok None), started2, []) /\
      go_notifyRequest O ∈ started2 /\
      exists s2,
        notifyRequest 120 O s1 = Returns s2 /\
        map GoList.Value (GoList.elems (idleInstance s2)) = [O] /\
        exists s3 assigment3 started3,
          Assign 130 (demo_request "r3") s2 =
            (s3, Assign_returned (pb.mkAssignReply pb.Status_Ok (Some assigment3) None),
             started3) /\
          pb.InstanceId assigment3 = pb.InstanceId assigment1.
Proof.
  exact (Assign_Idle_Assign 110 120 130 Background (demo_request "r1")
           (demo_request "r3") None (GoList.mkElement O O) demo_warm
           eq_refl eq_refl eq_refl (fun _ => eq_refl)).
Defined.

(** The destroy branch of [Idle] for a registered instance: the reply is
    [Ok], [DestroySLot] is called with the slot of the instance, and the
    scaler, its registry included, is returned as it was. *)
Lemma Idle_destroy_registered (ctx : Context) (request : pb.IdleRequest)
    (assigment : pb.Assignment) (instance : ptr) (s : Simple) :
  pb.Assigment request = Some assigment ->
  wantsDestroy request = true ->
  instances s !! pb.InstanceId assigment = Some instance ->
  Idle ctx request s =
    (s, inr (pb.mkIdleReply pb.Status_Ok None),
     [go_IdleStart (Some assigment)],
     [call_DestroySLot ctx (pb.RequestId assigment)
        (model.Slot_Id (model.Slot_ (heap s instance)))
        (reason_text "bad instance")]).
Proof.
  intros Ha Hd Hreg. unfold Idle, deleteSlot. now rewrite Ha, Hd, Hreg.
Qed.

(** C1: [Idle] with [NeedDestroy = true] for the registered busy instance
    "i-1" returns the [Ok] reply and calls [DestroySLot] for its slot, but
    the registry still maps "i-1" to the instance and [Stats] still counts
    it.  An [Assign] that follows finds the idle pool empty and starts a
    creation; a later [Idle] for the same assignment, though, hands the
    destroyed instance to [notifyRequest], and the next [Assign] returns
    "i-1" again. *)
Theorem Idle_destroy_keeps_registry :
  let assigment := pb.mkAssignment "r1" "app-1" "i-1" in
  let ok := pb.mkIdleReply pb.Status_Ok None in
  exists s1,
    Idle Background (pb.mkIdleRequest (Some assigment) (Some (pb.mkResult (Some true))))
      demo_busy =
      (s1, inr ok, [go_IdleStart (Some assigment)],
       [call_DestroySLot Background "r1" "slot-1" (reason_text "bad instance")]) /\
    instances s1 !! "i-1" = Some O /\
    TotalInstance (Stats s1) = 1 /\
    (exists s1' longPollingChan,
       Assign 60 (demo_request "r2") s1 =
         (s1', Assign_select longPollingChan,
          [go_AssignStart 60; go_createInstance (Some demo_meta) "r2"])) /\
    exists s2 s3 assigment3 started3,
      Idle Background (pb.mkIdleRequest (Some assigment) None) s1 =
        (s1, inr ok, [go_IdleStart (Some assigment); go_notifyRequest O], []) /\
      notifyRequest 70 O s1 = Returns s2 /\
      Assign 80 (demo_request "r3") s2 =
        (s3, Assign_returned (pb.mkAssignReply pb.Status_Ok (Some assigment3) None),
         started3) /\
      pb.InstanceId assigment3 = "i-1".
Proof.
  simpl. eexists. split; [reflexivity|].
  split; [reflexivity|]. split; [reflexivity|].
  split; [do 2 eexists; reflexivity|].
  do 4 eexists. split; [reflexivity|]. split; [reflexivity|].
  split; reflexivity.
Qed.

(** ** AssignStart *)

Section ScanFacts.
Context {A : Type}.

Lemma GoList_successor_lookup (es : list (GoList.Element A)) (i : nat)
    (e : GoList.Element A) :
  NoDup (map GoList.eid es) -> es !! i = Some e ->
  GoList.successor (GoList.eid e) es = es !! S i.
Proof.
  revert i. induction es as [|x es IH]; intros i Hnd Hi; [discriminate|].
  apply NoDup_cons in Hnd as [Hx Hnd]. destruct i as [|i]; simpl in *.
  - inversion Hi; subst. rewrite Nat.eqb_refl. now destruct es.
  - destruct (Nat.eqb_spec (GoList.eid x) (GoList.eid e)) as [Heq|_].
    + exfalso. apply Hx. rewrite Heq. apply list_elem_of_fmap.
      exists e. split; [reflexivity|]. eapply list_elem_of_lookup_2, Hi.
    + now apply IH.
Qed.

Lemma GoList_unlink_forgets (es : list (GoList.Element A)) (e : GoList.Element A) :
  NoDup (map GoList.eid es) ->
  GoList.eid e ∉ map GoList.eid (GoList.unlink (GoList.eid e) es).
Proof.
  induction es as [|x es IH]; simpl; intros Hnd.
  - apply not_elem_of_nil.
  - apply NoDup_cons in Hnd as [Hx Hnd].
    destruct (Nat.eqb_spec (GoList.eid x) (GoList.eid e)) as [Heq|Hne].
    + now rewrite <- Heq.
    + simpl. apply not_elem_of_cons. split; [congruence|]. now apply IH.
Qed.

(** Once removed, an element has no next element. *)
Lemma GoList_Next_removed (l : GoList.List A) (e : GoList.Element A) :
  GoList.wf l -> GoList.Next (GoList.Remove e l) e = None.
Proof.
  intros [Hnd _]. unfold GoList.Next, GoList.Remove; simpl.
  apply GoList_successor_absent. now apply GoList_unlink_forgets.
Qed.

End ScanFacts.

(** The scan of [AssignStart] over a list that ends with [timeStamp]: it
    leaves the loop with the list as it found it, or it panics. *)
Lemma AssignStart_scan_outcome (costTime : time.Duration) (timeStamp : time.Time)
    (l : GoList.List time.Time) :
  GoList.wf l ->
  (exists e, GoList.Back l = Some e /\ GoList.Value e = timeStamp) ->
  forall (k fuel : nat) (clock : nat -> time.Time) (i : nat) e,
    GoList.elems l !! i = Some e ->
    length (GoList.elems l) = (i + k)%nat ->
    (k < fuel)%nat ->
    AssignStart_scan fuel clock costTime timeStamp (Some e) l = Returns l \/
    AssignStart_scan fuel clock costTime timeStamp (Some e) l = Panics.
Proof.
  intros Hwf (eT & HeT & HvT).
  induction k as [|k IH]; intros fuel clock i e Hi Hlen Hfuel.
  - apply lookup_lt_Some in Hi. lia.
  - destruct fuel as [|fuel]; [lia|]. simpl.
    destruct (Z.eqb_spec (GoList.Value e) timeStamp) as [_|Hne]; [now left|].
    destruct k as [|k].
    + exfalso. apply Hne. unfold GoList.Back in HeT.
      rewrite last_lookup in HeT.
      replace (Nat.pred (length (GoList.elems l))) with i in HeT by lia.
      congruence.
    + destruct fuel as [|fuel]; [lia|].
      destruct (costTime <? time.Since (clock O) (GoList.Value e)).
      * rewrite GoList_Next_removed by exact Hwf. now right.
      * unfold GoList.Next.
        rewrite (GoList_successor_lookup _ i) by (apply Hwf || exact Hi).
        destruct (lookup_lt_is_Some_2 (GoList.elems l) (S i)) as [e' He']; [lia|].
        rewrite He'. apply (IH (S fuel) _ (S i)); [exact He'|lia|lia].
Qed.

(** [AssignStart] prunes nothing: when it returns, the in-flight list is the
    old one with [timeStamp] appended, and [maxRequestNum] is the maximum of
    its old value and that length; otherwise it has panicked. *)
Lemma AssignStart_outcome (clock : nat -> time.Time) (timeStamp : time.Time)
    (r : RuntimeStatus) :
  GoList.wf (requestInstance r) ->
  AssignStart clock timeStamp r = Panics \/
  exists r',
    AssignStart clock timeStamp r = Returns r' /\
    requestInstance r' = GoList.PushBack timeStamp (requestInstance r) /\
    maxRequestNum r' = Z.max (maxRequestNum r) (GoList.Len (requestInstance r) + 1).
Proof.
  intros Hwf. unfold AssignStart.
  set (l := GoList.PushBack timeStamp (requestInstance r)).
  assert (Hwfl : GoList.wf l) by now apply GoList_wf_PushBack.
  destruct (GoList.Front l) as [e|] eqn:Hfront.
  - destruct (AssignStart_scan_outcome (GetRequestCostTime r) timeStamp l Hwfl)
      with (k := length (GoList.elems l)) (fuel := S (length (GoList.elems l)))
           (clock := clock) (i := O) (e := e) as [Hret|Hpanic].
    + eexists. split; [apply GoList_Back_PushBack|reflexivity].
    + unfold GoList.Front in Hfront. now rewrite head_lookup in Hfront.
    + reflexivity.
    + lia.
    + rewrite Hret. right. eexists. split; [reflexivity|]. simpl.
      split; [reflexivity|]. unfold l. rewrite GoList_Len_PushBack.
      destruct (Z.ltb_spec (maxRequestNum r) (GoList.Len (requestInstance r) + 1)); lia.
    + rewrite Hpanic. now left.
  - unfold GoList.Front, l in Hfront. simpl in Hfront.
    now destruct (GoList.elems (requestInstance r)).
Qed.

(** [AssignStart] panics as soon as the oldest in-flight entry is older
    than [requestCostTime]. *)
Lemma AssignStart_expired_front_panics (clock : nat -> time.Time)
    (timeStamp : time.Time) (r : RuntimeStatus) (e : GoList.Element time.Time) :
  GoList.wf (requestInstance r) ->
  GoList.Front (requestInstance r) = Some e ->
  GoList.Value e <> timeStamp ->
  requestCostTime r < time.Since (clock O) (GoList.Value e) ->
  AssignStart clock timeStamp r = Panics.
Proof.
  intros Hwf Hfront Hne Hexp. unfold AssignStart.
  set (l := GoList.PushBack timeStamp (requestInstance r)).
  assert (Hwfl : GoList.wf l) by now apply GoList_wf_PushBack.
  assert (Hf : GoList.Front l = Some e).
  { unfold GoList.Front, l in *. simpl.
    destruct (GoList.elems (requestInstance r)); [discriminate|exact Hfront]. }
  rewrite Hf.
  assert (Hlen : exists n, length (GoList.elems l) = S n).
  { unfold l; simpl. rewrite length_app; simpl. exists (length (GoList.elems (requestInstance r))). lia. }
  destruct Hlen as [n ->]. simpl.
  destruct (Z.eqb_spec (GoList.Value e) timeStamp) as [Heq|_]; [contradiction|].
  unfold GetRequestCostTime. apply Z.ltb_lt in Hexp. rewrite Hexp.
  now rewrite GoList_Next_removed.
Qed.

(** C8: the first [AssignStart] returns with its timestamp as the only
    in-flight entry and [maxRequestNum = 1].  The second one, called while
    [requestCostTime] is still 0, appends its timestamp, finds the first
    entry older than [requestCostTime], removes it, and panics on the nil
    element that [Next] yields for the removed one: it does not return, and
    [maxRequestNum] is not updated. *)
Theorem AssignStart_pruning_panics :
  exists r1,
    AssignStart (fun _ => 1000) 1000 NewRuntimeStatus = Returns r1 /\
    map GoList.Value (GoList.elems (requestInstance r1)) = [1000] /\
    maxRequestNum r1 = 1 /\
    requestCostTime r1 = 0 /\
    AssignStart (fun _ => 2001) 2000 r1 = Panics.
Proof.
  eexists. split; [reflexivity|]. repeat split.
Qed.

(** The scan of [getCurrentRequestBNum] tests [element != nil]: on the same
    two entries, both expired, it removes the first, gets nil from [Next]
    and returns, leaving the second in the list. *)
Example getCurrentRequestBNum_stops_early :
  exists r',
    getCurrentRequestBNum (fun _ => 2001) demo_status = Returns (r', 1) /\
    map GoList.Value (GoList.elems (requestInstance r')) = [1500] /\
    AssignStart (fun _ => 2001) 2000 demo_status = Panics.
Proof. eexists. split; [reflexivity|]. split; reflexivity. Qed.

(** ** IdleStart *)

Lemma serve_requestCostTime (r : RuntimeStatus) (q : string * time.Time * time.Time) :
  requestCostTime (serve r q) =
    (if requestCostTime r =? 0 then measured q
     else smooth (rctRate r) (requestCostTime r) (measured q)) /\
  rctRate (serve r q) = rctRate r.
Proof.
  destruct q as [[requestId returned] idled]. unfold serve, IdleStart, AssignReturn.
  simpl. now rewrite lookup_insert_eq.
Qed.

(** [DefaultRctRate] is the [float64] nearest to nine tenths. *)
Remark DefaultRctRate_is_nine_tenths :
  PrimFloat.div (float64.of_int64 9) (float64.of_int64 10) = DefaultRctRate.
Proof. vm_compute. reflexivity. Qed.

(** C7, as the code has it: [rctRate] is 0.9 in a new [RuntimeStatus]; an
    [IdleStart] that finds [requestCostTime] equal to 0, the first one among
    them, sets it to the duration of the request; an [IdleStart] that finds
    it different from 0 sets it to
    [rctRate * requestCostTime + (1 - rctRate) * duration], computed in
    [float64] and truncated; so after a sequence of completed requests
    [requestCostTime] is the fold of that update over their durations. *)
Theorem IdleStart_update :
  rctRate NewRuntimeStatus = DefaultRctRate /\
  requestCostTime NewRuntimeStatus = 0 /\
  (forall r q, requestCostTime r = 0 ->
     requestCostTime (serve r q) = measured q) /\
  (forall r q, requestCostTime r <> 0 ->
     requestCostTime (serve r q) =
       smooth (rctRate r) (requestCostTime r) (measured q)) /\
  (forall qs r,
     requestCostTime (serve_all qs r) =
       fold_left (fun costTime duration =>
                    if costTime =? 0 then duration
                    else smooth (rctRate r) costTime duration)
         (map measured qs) (requestCostTime r)).
Proof.
  split; [reflexivity|]. split; [reflexivity|]. split; [|split].
  - intros r q Hzero. rewrite (proj1 (serve_requestCostTime r q)).
    now rewrite Hzero.
  - intros r q Hnz. rewrite (proj1 (serve_requestCostTime r q)).
    apply Z.eqb_neq in Hnz. now rewrite Hnz.
  - intros qs. unfold serve_all.
    induction qs as [|q qs IH]; intros r; simpl; [reflexivity|].
    rewrite IH. destruct (serve_requestCostTime r q) as [-> ->]. reflexivity.
Qed.

Lemma IdleStart_update_witness :
  requestCostTime (serve NewRuntimeStatus ("a", 10, 1010)) = 1000 /\
  requestCostTime (serve (serve NewRuntimeStatus ("a", 10, 1010)) ("b", 2000, 4000)) =
    smooth DefaultRctRate 1000 2000.
Proof.
  split.
  - exact (proj1 (proj2 (proj2 IdleStart_update))
             NewRuntimeStatus ("a", 10, 1010) eq_refl).
  - refine (proj1 (proj2 (proj2 (proj2 IdleStart_update)))
              (serve NewRuntimeStatus ("a", 10, 1010)) ("b", 2000, 4000) _).
    vm_compute. discriminate.
Defined.

(** C7, as stated, fails: after a first request of duration 0 the estimate
    is 0, and the [IdleStart] of a second request, of duration 1000, sets
    the estimate to 1000, not to the weighted mean of 0 and 1000 (100, and
    99 once computed in [float64] and truncated). *)
Lemma IdleStart_later_not_smoothed :
  let r1 := serve NewRuntimeStatus ("a", 10, 10) in
  let r2 := serve r1 ("b", 20, 1020) in
  requestCostTime r1 = 0 /\
  measured ("b", 20, 1020) = 1000 /\
  requestCostTime r2 = 1000 /\
  smooth (rctRate r1) (requestCostTime r1) 1000 = 99 /\
  requestCostTime r2 <> smooth (rctRate r1) (requestCostTime r1) 1000.
Proof.
  vm_compute. repeat split; discriminate.
Qed.

(** ** createInstance *)

Lemma registered_without_memory_New (metaData : pb.Meta) (cfg : config.Config) :
  registered_without_memory (New metaData cfg).
Proof. intros id p Hreg. simpl in Hreg. now rewrite lookup_empty in Hreg. Qed.

Lemma store_Meta (p q : ptr) (h : ptr -> model.Instance) (b : bool) (t : time.Time) :
  model.Meta (store p (model.with_Busy b) h q) = model.Meta (h q) /\
  model.Meta (store p (model.with_LastIdleTime t) h q) = model.Meta (h q).
Proof. unfold store. now destruct (Nat.eqb q p). Qed.

(** The other operations keep the invariant: they write [Busy] and
    [LastIdleTime] only, and they add nothing to the registry. *)
Lemma registered_without_memory_notifyRequest (now : time.Time) (instance : ptr)
    (s s' : Simple) :
  notifyRequest now instance s = Returns s' ->
  registered_without_memory s -> registered_without_memory s'.
Proof.
  unfold notifyRequest. intros Hrun Hinv id p Hreg.
  destruct (GoList.Front (longPollingList s)).
  - simpl in Hrun. destruct (chan_send _ _ _); inversion Hrun; subst.
    simpl in *. now apply Hinv in Hreg.
  - inversion Hrun; subst. simpl in *. apply Hinv in Hreg as [Hlt Hmem].
    split; [exact Hlt|].
    now rewrite (proj2 (store_Meta _ _ _ false _)), (proj1 (store_Meta _ _ _ false now)).
Qed.

Lemma registered_without_memory_Assign (now : time.Time) (request : pb.AssignRequest)
    (s : Simple) :
  registered_without_memory s ->
  registered_without_memory (fst (fst (Assign now request s))).
Proof.
  unfold Assign. intros Hinv id p Hreg.
  destruct (GoList.Front (idleInstance s)); simpl in *.
  - apply Hinv in Hreg as [Hlt Hmem]. split; [exact Hlt|].
    now rewrite (proj1 (store_Meta _ _ _ true now)).
  - now apply Hinv in Hreg.
Qed.

Lemma registered_without_memory_gcLoop_round (now : time.Time) (s : Simple) :
  registered_without_memory s ->
  registered_without_memory (fst (gcLoop_round now s)).
Proof.
  unfold gcLoop_round. intros Hinv id p Hreg.
  destruct (GoList.Back (idleInstance s)); [|now apply (Hinv id)].
  destruct (_ <? _); [|now apply (Hinv id)]. simpl in *.
  apply lookup_delete_Some in Hreg as [_ Hreg]. now apply (Hinv id).
Qed.

(** C10: [createInstance] calls [CreateSlot] first, with a resource config
    that holds the [MemoryInMb] of the request; every [Init] it calls gets a
    meta made of the [Key], [Runtime] and [TimeoutInSecs] of the request and
    a zero [MemoryInMb]; and, the platform returning from [Init] an instance
    with the meta it was given, the registry keeps holding only instances
    whose [Meta] has a zero [MemoryInMb]. *)
Theorem createInstance_meta `{Client} (creatingTime endTime : time.Time)
    (instanceId requestId : string) (requestMeta : pb.Meta) (s : Simple) :
  exists s' calls started,
    createInstance creatingTime endTime instanceId (Some requestMeta) requestId s
      = Returns (s', calls, started) /\
    head calls =
      Some (call_CreateSlot requestId (pb.mkResourceConfig (pb.MemoryInMb requestMeta))) /\
    (forall c, c ∈ tail calls ->
       exists slot,
         c = call_Init requestId instanceId slot
               (pb.mkMeta (pb.Key requestMeta) (pb.Runtime requestMeta)
                  (pb.TimeoutInSecs requestMeta) 0)) /\
    ((forall rid iid slot meta created,
        Init rid iid slot meta = inr created -> model.Meta created = meta) ->
     registered_without_memory s ->
     registered_without_memory s' /\
     forall p, go_notifyRequest p ∈ started ->
       instances s' !! model.Id (heap s' p) = Some p /\
       pb.MemoryInMb (model.Meta (heap s' p)) = 0).
Proof.
  unfold createInstance.
  destruct (CreateSlot requestId _) as [err|slot].
  - do 3 eexists. split; [reflexivity|]. split; [reflexivity|]. split.
    + intros c Hc. now apply elem_of_nil in Hc.
    + intros _ Hinv. split; [exact Hinv|].
      intros p Hp. now apply elem_of_nil in Hp.
  - destruct (Init requestId instanceId slot _) as [err|created] eqn:HInit.
    + do 3 eexists. split; [reflexivity|]. split; [reflexivity|]. split.
      * intros c Hc. apply list_elem_of_singleton in Hc. now exists slot.
      * intros _ Hinv. split; [exact Hinv|].
        intros p Hp. now apply elem_of_nil in Hp.
    + do 3 eexists. split; [reflexivity|]. split; [reflexivity|]. split.
      * intros c Hc. apply list_elem_of_singleton in Hc. now exists slot.
      * intros Hecho Hinv. apply Hecho in HInit. simpl. split.
        -- intros id p Hreg. simpl in *. rewrite Nat.eqb_refl in Hreg.
           apply lookup_insert_Some in Hreg as [[_ <-]|[_ Hreg]].
           ++ rewrite Nat.eqb_refl, HInit. split; [lia|reflexivity].
           ++ apply Hinv in Hreg as [Hlt Hmem].
              destruct (Nat.eqb_spec p (next_ptr s)) as [->|_]; [lia|].
              split; [lia|exact Hmem].
        -- intros p Hp. apply elem_of_cons in Hp as [Hp|Hp].
           ++ inversion Hp; subst. rewrite Nat.eqb_refl.
              rewrite lookup_insert_eq, HInit. split; reflexivity.
           ++ apply list_elem_of_singleton in Hp. discriminate.
Qed.

Lemma createInstance_meta_witness :
  exists s' calls started,
    @createInstance demo_client 0 40 "i-2" (Some demo_meta) "r2" demo_busy
      = Returns (s', calls, started) /\
    head calls = Some (call_CreateSlot "r2" (pb.mkResourceConfig 128)) /\
    (forall c, c ∈ tail calls ->
       exists slot,
         c = call_Init "r2" "i-2" slot (pb.mkMeta "app-1" "python" 30 0)) /\
    registered_without_memory s' /\
    forall p, go_notifyRequest p ∈ started ->
      instances s' !! model.Id (heap s' p) = Some p /\
      pb.MemoryInMb (model.Meta (heap s' p)) = 0.
Proof.
  destruct (@createInstance_meta demo_client 0 40 "i-2" "r2" demo_meta demo_busy)
    as (s' & calls & started & Hrun & Hhead & Hinit & Hreg).
  exists s', calls, started.
  split; [exact Hrun|]. split; [exact Hhead|]. split; [exact Hinit|].
  apply Hreg.
  - intros rid iid slot meta created Hc. simpl in Hc. now inversion Hc.
  - intros id p Hp. unfold demo_busy in Hp. simpl in Hp.
    apply lookup_singleton_Some in Hp as [_ <-]. split; [simpl; lia|reflexivity].
Defined.

(** ** gcLoop *)


(** One round of [gcLoop]: it evicts the back of the idle pool, found
    expired, and goes on; or it changes nothing and stops. *)
Lemma gcLoop_round_cases (now : time.Time) (s : Simple) :
  (exists element,
     GoList.Back (idleInstance s) = Some element /\
     config.IdleDurationBeforeGC (config s)
       < time.Since now (model.LastIdleTime (heap s (GoList.Value element))) /\
     gcLoop_round now s =
       (set_instances
          (delete (model.Id (heap s (GoList.Value element))) (instances s))
          (set_idleInstance (GoList.Remove element (idleInstance s)) s),
        Some (go_gc_deleteSlot
                (time.Since now (model.LastIdleTime (heap s (GoList.Value element))))
                (GoList.Value element)))) \/
  (gcLoop_round now s = (s, None) /\
   match GoList.Back (idleInstance s) with
   | Some element =>
       time.Since now (model.LastIdleTime (heap s (GoList.Value element)))
         <= config.IdleDurationBeforeGC (config s)
   | None => True
   end).
Proof.
  unfold gcLoop_round. destruct (GoList.Back (idleInstance s)) as [element|].
  - destruct (Z.ltb_spec (config.IdleDurationBeforeGC (config s))
                (time.Since now (model.LastIdleTime (heap s (GoList.Value element))))).
    + left. exists element. repeat split. assumption.
    + right. split; [reflexivity|assumption].
  - right. split; [reflexivity|exact I].
Qed.

Lemma GoList_Back_snoc {A : Type} (l : GoList.List A) (e : GoList.Element A) :
  GoList.Back l = Some e ->
  exists es, GoList.elems l = es ++ [e].
Proof.
  unfold GoList.Back. intros Hlast.
  destruct (GoList.elems l) as [|x es] using rev_ind; [discriminate|].
  rewrite last_snoc in Hlast. inversion Hlast; subst. now exists es.
Qed.

Lemma GoList_wf_Remove_Back {A : Type} (l : GoList.List A) (e : GoList.Element A)
    (es : list (GoList.Element A)) :
  GoList.wf l -> GoList.elems l = es ++ [e] ->
  GoList.elems (GoList.Remove e l) = es /\ GoList.wf (GoList.Remove e l).
Proof.
  intros [Hnd Hlt] Hes. unfold GoList.Remove, GoList.wf; simpl.
  rewrite Hes in *. rewrite GoList_unlink_snoc by exact Hnd.
  split; [reflexivity|]. split.
  - rewrite map_app in Hnd. now apply NoDup_app in Hnd as [Hnd _].
  - now apply Forall_app in Hlt as [Hlt _].
Qed.

Lemma gcLoop_rounds_evictions (n : nat) :
  forall (clock : nat -> time.Time) (s : Simple),
  GoList.wf (idleInstance s) ->
  length (GoList.elems (idleInstance s)) = n ->
  exists s' started,
    gcLoop_rounds (S n) clock s = Returns (s', started) /\
    heap s' = heap s /\
    config s' = config s /\
    (forall id, instances s !! id = None -> instances s' !! id = None) /\
    (length started <= n)%nat /\
    GoList.elems (idleInstance s') =
      take (n - length started) (GoList.elems (idleInstance s)) /\
    (forall k g, started !! k = Some g ->
       exists element,
         GoList.elems (idleInstance s) !! (n - S k)%nat = Some element /\
         g = go_gc_deleteSlot
               (time.Since (clock k) (model.LastIdleTime (heap s (GoList.Value element))))
               (GoList.Value element) /\
         config.IdleDurationBeforeGC (config s)
           < time.Since (clock k) (model.LastIdleTime (heap s (GoList.Value element))) /\
         instances s' !! model.Id (heap s (GoList.Value element)) = None) /\
    match GoList.Back (idleInstance s') with
    | Some element =>
        time.Since (clock (length started))
          (model.LastIdleTime (heap s (GoList.Value element)))
          <= config.IdleDurationBeforeGC (config s)
    | None => True
    end.
Proof.
  induction n as [|m IH]; intros clock s Hwf Hlen.
  - (* the pool is empty *)
    destruct (gcLoop_round_cases (clock O) s) as [(element & Hback & _)|[Hstop Hlast]].
    + apply GoList_Back_snoc in Hback as [es Hes]. rewrite Hes, length_app in Hlen.
      simpl in Hlen. lia.
    + exists s, []. simpl. rewrite Hstop. repeat split; try done.
      now rewrite take_0, (nil_length_inv _ Hlen).
  - destruct (gcLoop_round_cases (clock O) s)
      as [(element & Hback & Hexp & Hround)|[Hstop Hlast]].
    + (* the back is expired: evict it and go on *)
      destruct (GoList_Back_snoc _ _ Hback) as [es Hes].
      destruct (GoList_wf_Remove_Back _ _ _ Hwf Hes) as [Hrem Hwf'].
      assert (Hm : length es = m).
      { rewrite Hes, length_app in Hlen. simpl in Hlen. lia. }
      set (s1 := set_instances
                   (delete (model.Id (heap s (GoList.Value element))) (instances s))
                   (set_idleInstance (GoList.Remove element (idleInstance s)) s)) in *.
      destruct (IH (fun k => clock (S k)) s1) as
        (s' & started & Hrun & Hheap & Hcfg & Hmono & Hle & Hpool & Hall & Hend).
      { exact Hwf'. }
      { change (length (GoList.elems (GoList.Remove element (idleInstance s))) = m).
        now rewrite Hrem. }
      exists s', (go_gc_deleteSlot
                    (time.Since (clock O)
                       (model.LastIdleTime (heap s (GoList.Value element))))
                    (GoList.Value element) :: started).
      change (gcLoop_rounds (S (S m)) clock s) with
        (match gcLoop_round (clock O) s with
         | (s0, Some g) =>
             match gcLoop_rounds (S m) (fun k => clock (S k)) s0 with
             | Returns (s'', gs) => Returns (s'', g :: gs)
             | other => other
             end
         | (s0, None) => Returns (s0, [])
         end).
      rewrite Hround, Hrun.
      assert (Hp1 : GoList.elems (idleInstance s1) = es) by exact Hrem.
      assert (Hh1 : heap s1 = heap s) by reflexivity.
      assert (Hc1 : config s1 = config s) by reflexivity.
      rewrite Hp1 in Hpool, Hall. rewrite Hh1 in Hheap, Hall, Hend.
      rewrite Hc1 in Hcfg, Hall, Hend.
      split; [reflexivity|]. split; [exact Hheap|]. split; [exact Hcfg|].
      split; [|split; [|split; [|split]]].
      * intros id Hnone. apply Hmono. unfold s1. simpl.
        apply lookup_delete_None. now right.
      * simpl. lia.
      * rewrite Hpool, Hes. simpl length.
        replace (S m - S (length started))%nat with (m - length started)%nat by lia.
        rewrite take_app_le by lia. reflexivity.
      * intros k g Hk. destruct k as [|k]; simpl in Hk.
        -- inversion Hk; subst g. exists element. rewrite Hes.
           split; [|split; [reflexivity|split; [exact Hexp|]]].
           { replace (S m - 1)%nat with (length es + 0)%nat by lia.
             now rewrite lookup_app_r, Nat.add_comm, Nat.add_sub by lia. }
           apply Hmono. unfold s1. simpl. apply lookup_delete_None. now left.
        -- destruct (Hall k g Hk) as (element' & Hlook & Hg & Hexp' & Hgone).
           exists element'. rewrite Hes.
           split; [|split; [exact Hg|split; [exact Hexp'|exact Hgone]]].
           replace (S m - S (S k))%nat with (m - S k)%nat by lia.
           apply lookup_app_l_Some. exact Hlook.
      * simpl length. exact Hend.
    + (* the back is not expired: stop *)
      exists s, []. simpl. rewrite Hstop. repeat split; try done.
      * lia.
      * rewrite <- Hlen. now rewrite firstn_all.
Qed.



(** At instant 400 s the instance of [demo_warm], idle since instant 100 ns
    under a limit of 300 s, is evicted: the pool and the registry are empty
    and one goroutine is started for it. *)
Example gcLoop_tick_demo :
  exists s',
    gcLoop_tick (fun _ => 400000000000) demo_warm
      = Returns (s', [go_gc_deleteSlot 399999999900 O]) /\
    GoList.elems (idleInstance s') = [] /\
    instances s' !! "i-1" = None /\
    Stats s' = mkStats 0 0.
Proof. eexists. split; [reflexivity|]. repeat split. Qed.

(** One nanosecond earlier the idle time is exactly the limit, and nothing
    is evicted. *)
Example gcLoop_tick_demo_keeps :
  gcLoop_tick (fun _ => 300000000100) demo_warm = Returns (demo_warm, []).
Proof. reflexivity. Qed.

(** * Further properties *)

(** ** Idle: what it starts and what it calls *)

(** X1: [Idle] returns the scaler as it received it.  It starts
    [notifyRequest] for an instance exactly when the assignment names that
    instance in the registry, no destruction is asked for and the instance
    is busy; besides that it starts only the [IdleStart] goroutine.  It
    calls the platform exactly when there is an assignment and destruction
    is asked for, and then makes the single call [DestroySLot] with the
    reason "bad instance" and the slot id of the registered instance, or the
    empty slot id when the instance is not registered. *)
Theorem Idle_effects (ctx : Context) (request : pb.IdleRequest) (s : Simple) :
  match Idle ctx request s with
  | (s', _, started, calls) =>
      s' = s /\
      (forall p,
         go_notifyRequest p ∈ started <->
         exists a, pb.Assigment request = Some a /\
                   instances s !! pb.InstanceId a = Some p /\
                   wantsDestroy request = false /\
                   model.Busy (heap s p) = true) /\
      (forall g, g ∈ started ->
         g = go_IdleStart (pb.Assigment request) \/ exists p, g = go_notifyRequest p) /\
      (calls <> [] <->
         pb.Assigment request <> None /\ wantsDestroy request = true) /\
      (forall c, c ∈ calls ->
         exists a, pb.Assigment request = Some a /\
           c = call_DestroySLot ctx (pb.RequestId a)
                 (match instances s !! pb.InstanceId a with
                  | Some p => model.Slot_Id (model.Slot_ (heap s p))
                  | None => ""
                  end)
                 (reason_text "bad instance")) /\
      (length calls <= 1)%nat
  end.
Proof.
  unfold Idle, deleteSlot.
  destruct (pb.Assigment request) as [a|] eqn:Ha.
  - destruct (instances s !! pb.InstanceId a) as [p|] eqn:Hreg.
    + destruct (wantsDestroy request) eqn:Hd.
      * split; [reflexivity|]. split; [|split; [|split; [|split]]].
        -- intros q. split.
           ++ intros Hin. apply list_elem_of_singleton in Hin. discriminate.
           ++ intros (a' & Ha' & _ & Hno & _). discriminate.
        -- intros g Hin. apply list_elem_of_singleton in Hin. now left.
        -- split; [intros _; split; [discriminate|reflexivity]|discriminate].
        -- intros c Hin. apply list_elem_of_singleton in Hin. exists a.
           now rewrite Hreg.
        -- simpl. lia.
      * destruct (model.Busy (heap s p)) eqn:Hbusy; simpl.
        -- split; [reflexivity|]. split; [|split; [|split; [|split]]].
           ++ intros q. split.
              ** intros Hin. apply elem_of_cons in Hin as [Hin|Hin]; [discriminate|].
                 apply list_elem_of_singleton in Hin. inversion Hin; subst q.
                 exists a. now repeat split.
              ** intros (a' & Ha' & Hq & _). inversion Ha'; subst a'.
                 rewrite Hreg in Hq. inversion Hq; subst q.
                 apply list_elem_of_further, list_elem_of_here.
           ++ intros g Hin. apply elem_of_cons in Hin as [->|Hin]; [now left|].
              apply list_elem_of_singleton in Hin. right. now exists p.
           ++ split; [intros Hne; now contradiction Hne|intros [_ Hx]; discriminate].
           ++ intros c Hin. now apply elem_of_nil in Hin.
           ++ simpl. lia.
        -- split; [reflexivity|]. split; [|split; [|split; [|split]]].
           ++ intros q. split.
              ** intros Hin. apply list_elem_of_singleton in Hin. discriminate.
              ** intros (a' & Ha' & Hq & _ & Hb). inversion Ha'; subst a'.
                 rewrite Hreg in Hq. inversion Hq; subst q. congruence.
           ++ intros g Hin. apply list_elem_of_singleton in Hin. now left.
           ++ split; [intros Hne; now contradiction Hne|intros [_ Hx]; discriminate].
           ++ intros c Hin. now apply elem_of_nil in Hin.
           ++ simpl. lia.
    + split; [reflexivity|]. split; [|split; [|split; [|split]]].
      * intros q. split.
        -- intros Hin. apply list_elem_of_singleton in Hin. discriminate.
        -- intros (a' & Ha' & Hq & _). inversion Ha'; subst a'. congruence.
      * intros g Hin. apply list_elem_of_singleton in Hin. now left.
      * destruct (wantsDestroy request).
        -- split; [intros _; split; [discriminate|reflexivity]|discriminate].
        -- split; [intros Hne; now contradiction Hne|intros [_ Hx]; discriminate].
      * intros c Hin. destruct (wantsDestroy request).
        -- apply list_elem_of_singleton in Hin. exists a. now rewrite Hreg.
        -- now apply elem_of_nil in Hin.
      * destruct (wantsDestroy request); simpl; lia.
  - split; [reflexivity|]. split; [|split; [|split; [|split]]].
    + intros q. split.
      * intros Hin. apply list_elem_of_singleton in Hin. discriminate.
      * intros (a' & Ha' & _). discriminate.
    + intros g Hin. apply list_elem_of_singleton in Hin. now left.
    + split; [intros Hne; now contradiction Hne|intros [Hx _]; now contradiction Hx].
    + intros c Hin. now apply elem_of_nil in Hin.
    + simpl. lia.
Qed.

(** ** Idle, notifyRequest and Assign composed *)

(** X2: for a registered busy instance and an empty waiter queue, once the
    [notifyRequest] that a first [Idle] started has run, the instance is at
    the front of the idle pool, not busy, and a second [Idle] for the same
    assignment returns the [Ok] reply, starts no [notifyRequest] and calls
    nothing. *)
Theorem Idle_after_notify_is_noop (ctx : Context) (now : time.Time)
    (request : pb.IdleRequest) (a : pb.Assignment) (p : ptr) (s : Simple) :
  pb.Assigment request = Some a ->
  instances s !! pb.InstanceId a = Some p ->
  wantsDestroy request = false ->
  model.Busy (heap s p) = true ->
  GoList.Front (longPollingList s) = None ->
  exists s1,
    Idle ctx request s =
      (s, inr (pb.mkIdleReply pb.Status_Ok None),
       [go_IdleStart (Some a); go_notifyRequest p], []) /\
    notifyRequest now p s = Returns s1 /\
    map GoList.Value (GoList.elems (idleInstance s1))
      = p :: map GoList.Value (GoList.elems (idleInstance s)) /\
    model.Busy (heap s1 p) = false /\
    Idle ctx request s1 =
      (s1, inr (pb.mkIdleReply pb.Status_Ok None), [go_IdleStart (Some a)], []).
Proof.
  intros Ha Hreg Hd Hbusy Hwait.
  unfold notifyRequest. rewrite Hwait.
  eexists. split; [|split; [reflexivity|]].
  - unfold Idle. now rewrite Ha, Hreg, Hd, Hbusy.
  - simpl. split; [reflexivity|]. rewrite !store_same. simpl.
    split; [reflexivity|].
    unfold Idle. simpl. rewrite Ha, Hreg, Hd. rewrite !store_same. reflexivity.
Qed.

Lemma Idle_after_notify_is_noop_witness :
  exists s1,
    Idle Background (pb.mkIdleRequest (Some (pb.mkAssignment "r1" "app-1" "i-1")) None)
      demo_busy =
      (demo_busy, inr (pb.mkIdleReply pb.Status_Ok None),
       [go_IdleStart (Some (pb.mkAssignment "r1" "app-1" "i-1")); go_notifyRequest O], []) /\
    notifyRequest 70 O demo_busy = Returns s1 /\
    map GoList.Value (GoList.elems (idleInstance s1))
      = O :: map GoList.Value (GoList.elems (idleInstance demo_busy)) /\
    model.Busy (heap s1 O) = false /\
    Idle Background (pb.mkIdleRequest (Some (pb.mkAssignment "r1" "app-1" "i-1")) None) s1 =
      (s1, inr (pb.mkIdleReply pb.Status_Ok None),
       [go_IdleStart (Some (pb.mkAssignment "r1" "app-1" "i-1"))], []).
Proof.
  exact (Idle_after_notify_is_noop Background 70
           (pb.mkIdleRequest (Some (pb.mkAssignment "r1" "app-1" "i-1")) None)
           (pb.mkAssignment "r1" "app-1" "i-1") O demo_busy
           eq_refl eq_refl eq_refl eq_refl eq_refl).
Defined.

(** X3: [Idle] reads [Busy] and [notifyRequest] clears it later, in its own
    goroutine.  So two [Idle] calls for the same busy instance that both
    return before either goroutine runs both start [notifyRequest]; with an
    empty waiter queue the instance is then pushed to the idle pool twice,
    and the next two [Assign] calls return the same instance id. *)
Theorem Idle_twice_before_notify (ctx : Context) (now1 now2 now3 now4 : time.Time)
    (request : pb.IdleRequest) (request1 request2 : pb.AssignRequest)
    (a : pb.Assignment) (p : ptr) (s : Simple) :
  pb.Assigment request = Some a ->
  instances s !! pb.InstanceId a = Some p ->
  wantsDestroy request = false ->
  model.Busy (heap s p) = true ->
  GoList.Front (longPollingList s) = None ->
  exists s1 s2 s3 s4 a1 a2 started1 started2,
    Idle ctx request s =
      (s, inr (pb.mkIdleReply pb.Status_Ok None),
       [go_IdleStart (Some a); go_notifyRequest p], []) /\
    notifyRequest now1 p s = Returns s1 /\
    notifyRequest now2 p s1 = Returns s2 /\
    map GoList.Value (GoList.elems (idleInstance s2))
      = p :: p :: map GoList.Value (GoList.elems (idleInstance s)) /\
    Assign now3 request1 s2 =
      (s3, Assign_returned (pb.mkAssignReply pb.Status_Ok (Some a1) None), started1) /\
    Assign now4 request2 s3 =
      (s4, Assign_returned (pb.mkAssignReply pb.Status_Ok (Some a2) None), started2) /\
    pb.InstanceId a1 = model.Id (heap s p) /\
    pb.InstanceId a2 = model.Id (heap s p) /\
    GoList.elems (idleInstance s4) = GoList.elems (idleInstance s).
Proof.
  intros Ha Hreg Hd Hbusy Hwait.
  assert (Hidle : Idle ctx request s =
      (s, inr (pb.mkIdleReply pb.Status_Ok None),
       [go_IdleStart (Some a); go_notifyRequest p], [])).
  { unfold Idle. now rewrite Ha, Hreg, Hd, Hbusy. }
  do 8 eexists. split; [exact Hidle|].
  split; [unfold notifyRequest; rewrite Hwait; reflexivity|].
  split; [unfold notifyRequest; simpl; rewrite Hwait; reflexivity|].
  split; [reflexivity|].
  split; [unfold Assign; simpl; reflexivity|].
  split.
  { unfold Assign, GoList.Front, GoList.Remove, GoList.PushFront. simpl.
    rewrite Nat.eqb_refl. simpl. reflexivity. }
  simpl. rewrite !store_same. simpl. split; [reflexivity|]. split; [reflexivity|].
  now rewrite !Nat.eqb_refl.
Qed.

Lemma Idle_twice_before_notify_witness :
  exists s1 s2 s3 s4 a1 a2 started1 started2,
    Idle Background (pb.mkIdleRequest (Some (pb.mkAssignment "r1" "app-1" "i-1")) None)
      demo_busy =
      (demo_busy, inr (pb.mkIdleReply pb.Status_Ok None),
       [go_IdleStart (Some (pb.mkAssignment "r1" "app-1" "i-1")); go_notifyRequest O], []) /\
    notifyRequest 70 O demo_busy = Returns s1 /\
    notifyRequest 71 O s1 = Returns s2 /\
    map GoList.Value (GoList.elems (idleInstance s2))
      = O :: O :: map GoList.Value (GoList.elems (idleInstance demo_busy)) /\
    Assign 80 (demo_request "r2") s2 =
      (s3, Assign_returned (pb.mkAssignReply pb.Status_Ok (Some a1) None), started1) /\
    Assign 81 (demo_request "r3") s3 =
      (s4, Assign_returned (pb.mkAssignReply pb.Status_Ok (Some a2) None), started2) /\
    pb.InstanceId a1 = model.Id (heap demo_busy O) /\
    pb.InstanceId a2 = model.Id (heap demo_busy O) /\
    GoList.elems (idleInstance s4) = GoList.elems (idleInstance demo_busy).
Proof.
  exact (Idle_twice_before_notify Background 70 71 80 81
           (pb.mkIdleRequest (Some (pb.mkAssignment "r1" "app-1" "i-1")) None)
           (demo_request "r2") (demo_request "r3")
           (pb.mkAssignment "r1" "app-1" "i-1") O demo_busy
           eq_refl eq_refl eq_refl eq_refl eq_refl).
Defined.

Lemma GoList_Front_None {A : Type} (l : GoList.List A) :
  GoList.Front l = None -> GoList.elems l = [].
Proof. unfold GoList.Front. now destruct (GoList.elems l). Qed.

(** X4: with an empty waiter queue, [notifyRequest] followed by [Assign] is
    a round trip on the idle pool, whatever the pool holds: [Assign] returns
    the instance just released (its id and the key of its meta, under the
    request id of the caller), starts no creation, and the pool, the
    registry and every other instance are as before; the instance itself is
    busy and carries the instant of its release. *)
Theorem notifyRequest_then_Assign (now1 now2 : time.Time)
    (request : pb.AssignRequest) (p : ptr) (s : Simple) :
  GoList.Front (longPollingList s) = None ->
  exists s1 s2,
    notifyRequest now1 p s = Returns s1 /\
    Assign now2 request s1 =
      (s2,
       Assign_returned
         (pb.mkAssignReply pb.Status_Ok
            (Some (pb.mkAssignment (pb.AssignRequest_RequestId request)
                     (pb.Key (model.Meta (heap s p))) (model.Id (heap s p))))
            None),
       [go_AssignStart now2; go_AssignReturn (pb.AssignRequest_RequestId request)]) /\
    GoList.elems (idleInstance s2) = GoList.elems (idleInstance s) /\
    model.Busy (heap s2 p) = true /\
    model.LastIdleTime (heap s2 p) = now1 /\
    (forall q, q <> p -> heap s2 q = heap s q) /\
    instances s2 = instances s /\
    longPollingList s2 = longPollingList s.
Proof.
  intros Hwait. do 2 eexists.
  split; [unfold notifyRequest; rewrite Hwait; reflexivity|].
  split.
  { unfold Assign, GoList.Front, GoList.Remove, GoList.PushFront. simpl.
    unfold assignReply. simpl. rewrite !store_same. reflexivity. }
  simpl. rewrite !store_same, Nat.eqb_refl. simpl.
  repeat split.
  intros q Hq. unfold store. apply Nat.eqb_neq in Hq. now rewrite Hq.
Qed.

Lemma notifyRequest_then_Assign_witness :
  exists s1 s2,
    notifyRequest 120 O demo_warm = Returns s1 /\
    Assign 130 (demo_request "r3") s1 =
      (s2,
       Assign_returned
         (pb.mkAssignReply pb.Status_Ok (Some (pb.mkAssignment "r3" "app-1" "i-1")) None),
       [go_AssignStart 130; go_AssignReturn "r3"]) /\
    GoList.elems (idleInstance s2) = GoList.elems (idleInstance demo_warm) /\
    model.Busy (heap s2 O) = true /\
    model.LastIdleTime (heap s2 O) = 120 /\
    (forall q, q <> O -> heap s2 q = heap demo_warm q) /\
    instances s2 = instances demo_warm /\
    longPollingList s2 = longPollingList demo_warm.
Proof.
  exact (notifyRequest_then_Assign 120 130 (demo_request "r3") O demo_warm eq_refl).
Defined.

(** X5: the hand-off to a waiter.  On a scaler with an empty idle pool and
    an empty waiter queue, [Assign] waits on a fresh channel, on which
    nothing can be received yet; a [notifyRequest] that runs then puts the
    instance in that channel; the waiting [Assign] receives it, marks it
    busy and returns its id; the idle pool never held the instance, the
    waiter queue and the channel are empty again, and nothing more can be
    received. *)
Theorem Assign_waits_then_receives (now1 now2 : time.Time)
    (request : pb.AssignRequest) (p : ptr) (s : Simple) :
  GoList.Front (idleInstance s) = None ->
  GoList.Front (longPollingList s) = None ->
  exists s1 s2 s3 longPollingChan started,
    Assign now1 request s = (s1, Assign_select longPollingChan, started) /\
    Assign_recv request longPollingChan s1 = None /\
    notifyRequest now2 p s1 = Returns s2 /\
    Assign_recv request longPollingChan s2 =
      Some (s3,
            pb.mkAssignReply pb.Status_Ok
              (Some (pb.mkAssignment (pb.AssignRequest_RequestId request)
                       (pb.Key (model.Meta (heap s p))) (model.Id (heap s p))))
              None,
            [go_AssignReturn (pb.AssignRequest_RequestId request)]) /\
    model.Busy (heap s3 p) = true /\
    idleInstance s3 = idleInstance s /\
    GoList.elems (longPollingList s3) = [] /\
    instances s3 = instances s /\
    Assign_recv request longPollingChan s3 = None.
Proof.
  intros Hmiss Hwait. apply GoList_Front_None in Hwait as Hnil.
  do 5 eexists.
  split; [unfold Assign; rewrite Hmiss; reflexivity|].
  split; [unfold Assign_recv, chan_recv; simpl; now rewrite Nat.eqb_refl|].
  split.
  { unfold notifyRequest, GoList.Front, GoList.PushBack, GoList.Remove, chan_send.
    simpl. rewrite Hnil. simpl. rewrite !Nat.eqb_refl. reflexivity. }
  split.
  { unfold Assign_recv, chan_recv, assignReply. simpl. rewrite !Nat.eqb_refl.
    simpl. rewrite !store_same. reflexivity. }
  simpl. rewrite !store_same. simpl. repeat split.
  unfold Assign_recv, chan_recv. simpl. now rewrite !Nat.eqb_refl.
Qed.

Lemma Assign_waits_then_receives_witness :
  exists s1 s2 s3 longPollingChan started,
    Assign 50 (demo_request "r2") demo_busy = (s1, Assign_select longPollingChan, started) /\
    Assign_recv (demo_request "r2") longPollingChan s1 = None /\
    notifyRequest 60 O s1 = Returns s2 /\
    Assign_recv (demo_request "r2") longPollingChan s2 =
      Some (s3,
            pb.mkAssignReply pb.Status_Ok (Some (pb.mkAssignment "r2" "app-1" "i-1")) None,
            [go_AssignReturn "r2"]) /\
    model.Busy (heap s3 O) = true /\
    idleInstance s3 = idleInstance demo_busy /\
    GoList.elems (longPollingList s3) = [] /\
    instances s3 = instances demo_busy /\
    Assign_recv (demo_request "r2") longPollingChan s3 = None.
Proof.
  exact (Assign_waits_then_receives 50 60 (demo_request "r2") O demo_busy
           eq_refl eq_refl).
Defined.

(** X6: waiters are served in the order of their arrival.  After two
    [Assign] calls that both miss, on a scaler with an empty idle pool and
    an empty waiter queue, the first [notifyRequest] sends its instance on
    the channel of the first call and leaves the second channel empty, and
    the second [notifyRequest] sends its instance on the channel of the
    second call; each call then receives the instance sent to it. *)
Theorem waiters_served_in_order (now1 now2 now3 now4 : time.Time)
    (request1 request2 : pb.AssignRequest) (p1 p2 : ptr) (s : Simple) :
  GoList.Front (idleInstance s) = None ->
  GoList.Front (longPollingList s) = None ->
  exists s1 s2 s3 s4 chan1 chan2 started1 started2,
    Assign now1 request1 s = (s1, Assign_select chan1, started1) /\
    Assign now2 request2 s1 = (s2, Assign_select chan2, started2) /\
    chan1 <> chan2 /\
    notifyRequest now3 p1 s2 = Returns s3 /\
    chans s3 chan1 = [p1] /\
    chans s3 chan2 = [] /\
    notifyRequest now4 p2 s3 = Returns s4 /\
    chans s4 chan1 = [p1] /\
    chans s4 chan2 = [p2] /\
    GoList.elems (longPollingList s4) = [] /\
    idleInstance s4 = idleInstance s /\
    (exists s5 started,
       Assign_recv request1 chan1 s4 =
         Some (s5, assignReply request1 (model.with_Busy true (heap s p1)), started)) /\
    (exists s5 started,
       Assign_recv request2 chan2 s4 =
         Some (s5, assignReply request2 (model.with_Busy true (heap s p2)), started)).
Proof.
  intros Hmiss Hwait. apply GoList_Front_None in Hwait as Hnil.
  assert (Hne : (S (next_chan s) =? next_chan s)%nat = false)
    by (apply Nat.eqb_neq; lia).
  assert (Hne' : (next_chan s =? S (next_chan s))%nat = false)
    by (apply Nat.eqb_neq; lia).
  assert (Hf : (GoList.fresh (longPollingList s)
                =? S (GoList.fresh (longPollingList s)))%nat = false)
    by (apply Nat.eqb_neq; lia).
  do 8 eexists.
  split; [unfold Assign; rewrite Hmiss; reflexivity|].
  split; [unfold Assign; cbn -[Nat.eqb]; rewrite Hmiss; reflexivity|].
  split; [lia|].
  split.
  { unfold notifyRequest, GoList.Front, GoList.PushBack, GoList.Remove, chan_send.
    cbn -[Nat.eqb]. rewrite Hnil. cbn -[Nat.eqb]. rewrite ?Nat.eqb_refl, ?Hne, ?Hne', ?Hf. reflexivity. }
  cbn -[Nat.eqb]. rewrite ?Nat.eqb_refl, ?Hne, ?Hne', ?Hf. split; [reflexivity|]. split; [reflexivity|].
  split.
  { unfold notifyRequest, GoList.Front, GoList.PushBack, GoList.Remove, chan_send.
    cbn -[Nat.eqb]. rewrite ?Nat.eqb_refl, ?Hne, ?Hne', ?Hf. cbn -[Nat.eqb].
    rewrite ?Nat.eqb_refl, ?Hne, ?Hne', ?Hf. reflexivity. }
  cbn -[Nat.eqb]. rewrite ?Nat.eqb_refl, ?Hne, ?Hne', ?Hf. cbn -[Nat.eqb].
  rewrite ?Nat.eqb_refl, ?Hne, ?Hne', ?Hf.
  split; [reflexivity|]. split; [reflexivity|].
  split; [reflexivity|]. split; [reflexivity|].
  split.
  - do 2 eexists. unfold Assign_recv, chan_recv. cbn -[Nat.eqb].
    rewrite ?Nat.eqb_refl, ?Hne, ?Hne', ?Hf. cbn -[Nat.eqb]. rewrite store_same. reflexivity.
  - do 2 eexists. unfold Assign_recv, chan_recv. cbn -[Nat.eqb].
    rewrite ?Nat.eqb_refl, ?Hne, ?Hne', ?Hf. cbn -[Nat.eqb]. rewrite store_same. reflexivity.
Qed.

Lemma waiters_served_in_order_witness :
  exists s1 s2 s3 s4 chan1 chan2 started1 started2,
    Assign 50 (demo_request "r2") demo_busy = (s1, Assign_select chan1, started1) /\
    Assign 51 (demo_request "r3") s1 = (s2, Assign_select chan2, started2) /\
    chan1 <> chan2 /\
    notifyRequest 60 1%nat s2 = Returns s3 /\
    chans s3 chan1 = [1%nat] /\
    chans s3 chan2 = [] /\
    notifyRequest 61 2%nat s3 = Returns s4 /\
    chans s4 chan1 = [1%nat] /\
    chans s4 chan2 = [2%nat] /\
    GoList.elems (longPollingList s4) = [] /\
    idleInstance s4 = idleInstance demo_busy /\
    (exists s5 started,
       Assign_recv (demo_request "r2") chan1 s4 =
         Some (s5, assignReply (demo_request "r2")
                     (model.with_Busy true (heap demo_busy 1%nat)), started)) /\
    (exists s5 started,
       Assign_recv (demo_request "r3") chan2 s4 =
         Some (s5, assignReply (demo_request "r3")
                     (model.with_Busy true (heap demo_busy 2%nat)), started)).
Proof.
  exact (waiters_served_in_order 50 51 60 61 (demo_request "r2") (demo_request "r3")
           1%nat 2%nat demo_busy eq_refl eq_refl).
Defined.

(** X7: a cancelled [Assign] leaves its channel in the waiter queue.  After
    an [Assign] that missed has returned through [ctx.Done()], the next
    [notifyRequest] still takes that channel from the front of the queue
    and sends its instance there: the instance does not reach the idle pool
    and stays as busy as it was, and an [Assign] that comes next misses and
    waits on another channel, on which nothing is to be received. *)
Theorem cancelled_waiter_keeps_instance (now1 now2 now3 : time.Time)
    (request request' : pb.AssignRequest) (err : error) (p : ptr) (s : Simple) :
  GoList.Front (idleInstance s) = None ->
  GoList.Front (longPollingList s) = None ->
  exists s1 s2 s3 longPollingChan chan' started started',
    Assign now1 request s = (s1, Assign_select longPollingChan, started) /\
    Assign_Done request err s1 =
      (s1, err, [go_AssignReturn (pb.AssignRequest_RequestId request)]) /\
    GoList.Front (longPollingList s1)
      = Some (GoList.mkElement (GoList.fresh (longPollingList s)) longPollingChan) /\
    notifyRequest now2 p s1 = Returns s2 /\
    chans s2 longPollingChan = [p] /\
    idleInstance s2 = idleInstance s /\
    heap s2 = heap s /\
    Assign now3 request' s2 = (s3, Assign_select chan', started') /\
    chan' <> longPollingChan /\
    Assign_recv request' chan' s3 = None /\
    chans s3 longPollingChan = [p].
Proof.
  intros Hmiss Hwait. apply GoList_Front_None in Hwait as Hnil.
  assert (Hne : (next_chan s =? S (next_chan s))%nat = false)
    by (apply Nat.eqb_neq; lia).
  do 7 eexists.
  split; [unfold Assign; rewrite Hmiss; reflexivity|].
  split; [reflexivity|].
  split; [unfold GoList.Front, GoList.PushBack; simpl; now rewrite Hnil|].
  split.
  { unfold notifyRequest, GoList.Front, GoList.PushBack, GoList.Remove, chan_send.
    simpl. rewrite Hnil. simpl. rewrite !Nat.eqb_refl. reflexivity. }
  simpl. rewrite !Nat.eqb_refl.
  split; [reflexivity|]. split; [reflexivity|]. split; [reflexivity|].
  split; [unfold Assign; simpl; rewrite Hmiss; reflexivity|].
  split; [simpl; lia|].
  split.
  - unfold Assign_recv, chan_recv. simpl. now rewrite !Nat.eqb_refl.
  - simpl. now rewrite Hne, Nat.eqb_refl.
Qed.

Lemma cancelled_waiter_keeps_instance_witness :
  exists s1 s2 s3 longPollingChan chan' started started',
    Assign 50 (demo_request "r2") demo_busy = (s1, Assign_select longPollingChan, started) /\
    Assign_Done (demo_request "r2") (Errorf codes.Canceled "context canceled") s1 =
      (s1, Errorf codes.Canceled "context canceled", [go_AssignReturn "r2"]) /\
    GoList.Front (longPollingList s1)
      = Some (GoList.mkElement (GoList.fresh (longPollingList demo_busy)) longPollingChan) /\
    notifyRequest 60 O s1 = Returns s2 /\
    chans s2 longPollingChan = [O] /\
    idleInstance s2 = idleInstance demo_busy /\
    heap s2 = heap demo_busy /\
    Assign 70 (demo_request "r3") s2 = (s3, Assign_select chan', started') /\
    chan' <> longPollingChan /\
    Assign_recv (demo_request "r3") chan' s3 = None /\
    chans s3 longPollingChan = [O].
Proof.
  exact (cancelled_waiter_keeps_instance 50 60 70 (demo_request "r2")
           (demo_request "r3") (Errorf codes.Canceled "context canceled") O demo_busy
           eq_refl eq_refl).
Defined.

(** ** createInstance: failures, the creation counter, a cold start *)

Lemma wrap64_inc_dec (n : Z) :
  MinInt64 <= n <= MaxInt64 -> wrap64 (wrap64 (n + 1) - 1) = n.
Proof.
  unfold wrap64, MinInt64, MaxInt64.
  change (2 ^ 63) with 9223372036854775808.
  change (2 ^ 64) with 18446744073709551616.
  intros Hn. Z.to_euclidean_division_equations. lia.
Qed.

(** X8: whatever the platform answers, [createInstance] returns with
    [creatingNum] back at the value it found, never calls [DestroySLot], and
    leaves the idle pool, the waiter queue, the channels and every
    allocated instance as they were.  When [CreateSlot] fails, or [Init]
    fails after [CreateSlot] has succeeded, it also leaves the registry as
    it was and starts no goroutine: in the second case the slot that
    [CreateSlot] returned is passed to no further call. *)
Theorem createInstance_failure_and_balance `{Client}
    (creatingTime endTime : time.Time) (instanceId requestId : string)
    (requestMeta : pb.Meta) (s : Simple) :
  MinInt64 <= creatingNum s <= MaxInt64 ->
  exists s' calls started,
    createInstance creatingTime endTime instanceId (Some requestMeta) requestId s
      = Returns (s', calls, started) /\
    creatingNum s' = creatingNum s /\
    (forall ctx rid slotId reason, call_DestroySLot ctx rid slotId reason ∉ calls) /\
    idleInstance s' = idleInstance s /\
    longPollingList s' = longPollingList s /\
    chans s' = chans s /\
    (forall q, (q < next_ptr s)%nat -> heap s' q = heap s q) /\
    ((exists e, CreateSlot requestId
                  (pb.mkResourceConfig (pb.MemoryInMb requestMeta)) = inl e) ->
     instances s' = instances s /\ started = [] /\
     calls = [call_CreateSlot requestId
                (pb.mkResourceConfig (pb.MemoryInMb requestMeta))]) /\
    (forall slot,
       CreateSlot requestId (pb.mkResourceConfig (pb.MemoryInMb requestMeta))
         = inr slot ->
       (exists e, Init requestId instanceId slot
                    (pb.mkMeta (pb.Key requestMeta) (pb.Runtime requestMeta)
                       (pb.TimeoutInSecs requestMeta) 0) = inl e) ->
       instances s' = instances s /\ started = [] /\ length calls = 2%nat).
Proof.
  intros Hrange. unfold createInstance.
  destruct (CreateSlot requestId _) as [e|slot] eqn:HCreate.
  - do 3 eexists. split; [reflexivity|]. simpl.
    split; [now apply wrap64_inc_dec|].
    split.
    { intros ctx rid slotId reason Hin.
      apply list_elem_of_singleton in Hin. discriminate. }
    split; [reflexivity|]. split; [reflexivity|]. split; [reflexivity|].
    split; [reflexivity|]. split; [intros _; repeat split|].
    intros slot0 Hslot. discriminate.
  - destruct (Init requestId instanceId slot _) as [e|created] eqn:HInit.
    + do 3 eexists. split; [reflexivity|]. simpl.
      split; [now apply wrap64_inc_dec|].
      split.
      { intros ctx rid slotId reason Hin.
        apply elem_of_cons in Hin as [Hin|Hin]; [discriminate|].
        apply list_elem_of_singleton in Hin. discriminate. }
      split; [reflexivity|]. split; [reflexivity|]. split; [reflexivity|].
      split; [reflexivity|]. split; [intros [e' He']; discriminate|].
      intros slot0 _ _. repeat split.
    + do 3 eexists. split; [reflexivity|]. simpl.
      split; [now apply wrap64_inc_dec|].
      split.
      { intros ctx rid slotId reason Hin.
        apply elem_of_cons in Hin as [Hin|Hin]; [discriminate|].
        apply list_elem_of_singleton in Hin. discriminate. }
      split; [reflexivity|]. split; [reflexivity|]. split; [reflexivity|].
      split.
      { intros q Hq. destruct (Nat.eqb_spec q (next_ptr s)); [lia|reflexivity]. }
      split.
      * intros [e' He']. discriminate.
      * intros slot' Hslot' [e' He']. inversion Hslot'; subst slot'. congruence.
Qed.

(** A platform client whose [CreateSlot] succeeds and whose [Init] fails. *)
Lemma createInstance_failure_and_balance_witness :
  MinInt64 <= creatingNum demo_busy <= MaxInt64 /\
  exists s' calls started,
    @createInstance
      {| CreateSlot := fun _ resourceConfig => inr (model.mkSlot "slot-2" resourceConfig);
         Init := fun _ _ _ _ => inl "init failed" |}
      0 40 "i-2" (Some demo_meta) "r2" demo_busy = Returns (s', calls, started) /\
    creatingNum s' = creatingNum demo_busy /\
    instances s' = instances demo_busy /\
    started = [] /\
    length calls = 2%nat.
Proof.
  assert (Hrange : MinInt64 <= creatingNum demo_busy <= MaxInt64)
    by (vm_compute; split; discriminate).
  split; [exact Hrange|].
  destruct (@createInstance_failure_and_balance
              {| CreateSlot := fun _ resourceConfig => inr (model.mkSlot "slot-2" resourceConfig);
                 Init := fun _ _ _ _ => inl "init failed" |}
              0 40 "i-2" "r2" demo_meta demo_busy Hrange)
    as (s' & calls & started & Hrun & Hnum & _ & _ & _ & _ & _ & _ & Hinit).
  exists s', calls, started. split; [exact Hrun|]. split; [exact Hnum|].
  apply (Hinit (model.mkSlot "slot-2" (pb.mkResourceConfig 128))).
  - reflexivity.
  - now exists "init failed".
Defined.

(** X9: a cold start.  On a scaler with an empty idle pool, an empty waiter
    queue and no creation under way, [Assign] waits and starts
    [createInstance] for its request; when the platform creates the slot
    and the instance, [createInstance] registers the instance under its id
    and starts [notifyRequest] for it, which sends it to the waiting
    [Assign]; that one returns the id of the new instance, which is busy and
    never entered the idle pool. *)
Theorem cold_start `{Client} (now1 now2 creatingTime endTime : time.Time)
    (instanceId : string) (request : pb.AssignRequest) (requestMeta : pb.Meta)
    (slot : model.Slot) (created : model.Instance) (s : Simple) :
  GoList.Front (idleInstance s) = None ->
  GoList.Front (longPollingList s) = None ->
  creatingNum s <= 0 ->
  pb.MetaData request = Some requestMeta ->
  CreateSlot (pb.AssignRequest_RequestId request)
    (pb.mkResourceConfig (pb.MemoryInMb requestMeta)) = inr slot ->
  Init (pb.AssignRequest_RequestId request) instanceId slot
    (pb.mkMeta (pb.Key requestMeta) (pb.Runtime requestMeta)
       (pb.TimeoutInSecs requestMeta) 0) = inr created ->
  exists s1 s2 s3 s4 longPollingChan calls instance cas,
    Assign now1 request s =
      (s1, Assign_select longPollingChan,
       [go_AssignStart now1;
        go_createInstance (pb.MetaData request) (pb.AssignRequest_RequestId request)]) /\
    createInstance creatingTime endTime instanceId (pb.MetaData request)
      (pb.AssignRequest_RequestId request) s1
      = Returns (s2, calls, [go_notifyRequest instance; cas]) /\
    instances s2 = <[model.Id created := instance]> (instances s) /\
    heap s2 instance = created /\
    notifyRequest now2 instance s2 = Returns s3 /\
    Assign_recv request longPollingChan s3 =
      Some (s4,
            pb.mkAssignReply pb.Status_Ok
              (Some (pb.mkAssignment (pb.AssignRequest_RequestId request)
                       (pb.Key (model.Meta created)) (model.Id created)))
              None,
            [go_AssignReturn (pb.AssignRequest_RequestId request)]) /\
    instances s4 !! model.Id created = Some instance /\
    model.Busy (heap s4 instance) = true /\
    idleInstance s4 = idleInstance s /\
    GoList.elems (longPollingList s4) = [].
Proof.
  intros Hmiss Hwait Hnum Hmeta HCreate HInit.
  apply GoList_Front_None in Hwait as Hnil.
  do 8 eexists.
  split.
  { assert (Hlt : (creatingNum s
                     <? GoList.Len (GoList.PushBack (next_chan s) (longPollingList s)))
                  = true).
    { apply Z.ltb_lt. rewrite GoList_Len_PushBack. unfold GoList.Len. lia. }
    unfold Assign. rewrite Hmiss. cbn -[Nat.eqb Z.ltb GoList.Len GoList.PushBack].
    rewrite Hlt. reflexivity. }
  split.
  { unfold createInstance. rewrite Hmeta, HCreate, HInit. reflexivity. }
  cbn -[Nat.eqb]. rewrite ?Nat.eqb_refl.
  split; [reflexivity|]. split; [reflexivity|].
  split.
  { unfold notifyRequest, GoList.Front, GoList.PushBack, GoList.Remove, chan_send.
    cbn -[Nat.eqb]. rewrite Hnil. cbn -[Nat.eqb]. rewrite ?Nat.eqb_refl.
    reflexivity. }
  split.
  { unfold Assign_recv, chan_recv, assignReply. cbn -[Nat.eqb].
    rewrite ?Nat.eqb_refl. cbn -[Nat.eqb]. rewrite store_same.
    rewrite ?Nat.eqb_refl. reflexivity. }
  cbn -[Nat.eqb]. rewrite ?Nat.eqb_refl, ?store_same. cbn -[Nat.eqb].
  rewrite ?Nat.eqb_refl.
  split; [apply lookup_insert_eq|]. repeat split.
Qed.

Lemma cold_start_witness :
  exists s1 s2 s3 s4 longPollingChan calls instance cas,
    Assign 50 (demo_request "r2") demo_busy =
      (s1, Assign_select longPollingChan,
       [go_AssignStart 50; go_createInstance (Some demo_meta) "r2"]) /\
    @createInstance demo_client 55 95 "i-2" (Some demo_meta) "r2" s1
      = Returns (s2, calls, [go_notifyRequest instance; cas]) /\
    instances s2 = <["i-2" := instance]> (instances demo_busy) /\
    heap s2 instance =
      model.mkInstance "i-2" (model.mkSlot "slot-2" (pb.mkResourceConfig 128))
        (pb.mkMeta "app-1" "python" 30 0) 5 false time.zero /\
    notifyRequest 96 instance s2 = Returns s3 /\
    Assign_recv (demo_request "r2") longPollingChan s3 =
      Some (s4,
            pb.mkAssignReply pb.Status_Ok (Some (pb.mkAssignment "r2" "app-1" "i-2")) None,
            [go_AssignReturn "r2"]) /\
    instances s4 !! "i-2" = Some instance /\
    model.Busy (heap s4 instance) = true /\
    idleInstance s4 = idleInstance demo_busy /\
    GoList.elems (longPollingList s4) = [].
Proof.
  refine (@cold_start demo_client 50 96 55 95 "i-2" (demo_request "r2") demo_meta
            (model.mkSlot "slot-2" (pb.mkResourceConfig 128))
            (model.mkInstance "i-2" (model.mkSlot "slot-2" (pb.mkResourceConfig 128))
               (pb.mkMeta "app-1" "python" 30 0) 5 false time.zero)
            demo_busy eq_refl eq_refl _ eq_refl eq_refl eq_refl).
  vm_compute. discriminate.
Defined.

(** X10: [creatingDuration] keeps the first duration that is not zero:
    starting from a cell that holds 0, a run of compare-and-swap calls
    leaves in it the first non-zero value offered, and a cell that holds a
    non-zero value is never written again. *)
Theorem creatingDuration_keeps_first (ds : list Z) (s : Simple) :
  creatingDuration
    (fold_left (fun s d => CompareAndSwap_creatingDuration d s) ds s)
  = if creatingDuration s =? 0 then first_nonzero ds else creatingDuration s.
Proof.
  revert s. induction ds as [|d ds IH]; intros s; simpl.
  - now destruct (Z.eqb_spec (creatingDuration s) 0).
  - rewrite IH. unfold CompareAndSwap_creatingDuration.
    destruct (Z.eqb_spec (creatingDuration s) 0) as [Hz|Hnz]; simpl.
    + destruct (Z.eqb_spec d 0) as [->|Hd]; [reflexivity|].
      reflexivity.
    + apply Z.eqb_neq in Hnz. now rewrite Hnz.
Qed.

(** ** gcLoop: what it leaves alone *)

Lemma gcLoop_rounds_frame (fuel : nat) :
  forall (clock : nat -> time.Time) (s s' : Simple) (started : list Go),
  gcLoop_rounds fuel clock s = Returns (s', started) ->
  longPollingList s' = longPollingList s /\
  chans s' = chans s /\
  creatingNum s' = creatingNum s /\
  next_ptr s' = next_ptr s /\
  runtimeStatus s' = runtimeStatus s /\
  forall id,
    instances s' !! id = instances s !! id \/
    (instances s' !! id = None /\
     exists d q, go_gc_deleteSlot d q ∈ started /\ id = model.Id (heap s q)).
Proof.
  induction fuel as [|fuel IH]; intros clock s s' started Hrun; [discriminate|].
  simpl in Hrun.
  destruct (gcLoop_round_cases (clock O) s)
    as [(element & Hback & Hexp & Hround)|[Hstop _]].
  - rewrite Hround in Hrun.
    destruct (gcLoop_rounds fuel _ _) as [[s'' gs]| | |] eqn:Hrest; try discriminate.
    inversion Hrun; subst s'' started. clear Hrun.
    apply IH in Hrest as (Hw & Hc & Hn & Hp & Hr & Hreg).
    repeat (split; [assumption|]).
    intros id. simpl in Hreg.
    destruct (decide (id = model.Id (heap s (GoList.Value element)))) as [->|Hne].
    + right. split.
      * destruct (Hreg (model.Id (heap s (GoList.Value element)))) as [Heq|[Hnone _]].
        -- rewrite Heq. apply lookup_delete_eq.
        -- exact Hnone.
      * do 2 eexists. split; [apply list_elem_of_here|reflexivity].
    + destruct (Hreg id) as [Heq|[Hnone (d & q & Hin & Hid)]].
      * left. rewrite Heq. now apply lookup_delete_ne.
      * right. split; [exact Hnone|]. exists d, q.
        split; [now apply list_elem_of_further|exact Hid].
  - rewrite Hstop in Hrun. inversion Hrun; subst. repeat split. now left.
Qed.

(** X11: a tick of [gcLoop] touches nothing but the idle pool and the
    registry.  The waiter queue, the channels, the creation counter and the
    instances themselves are as before; a registry entry either is as before
    or has been deleted, and then its id is the id of an instance that was
    in the idle pool: an instance that is not in the pool, and shares its id
    with none that is, stays registered.  [Stats] reports as many idle
    instances fewer as goroutines were started. *)
Theorem gcLoop_leaves_the_rest (clock : nat -> time.Time) (s : Simple) :
  GoList.wf (idleInstance s) ->
  exists s' started,
    gcLoop_tick clock s = Returns (s', started) /\
    heap s' = heap s /\
    longPollingList s' = longPollingList s /\
    chans s' = chans s /\
    creatingNum s' = creatingNum s /\
    (forall id,
       instances s' !! id = instances s !! id \/
       (instances s' !! id = None /\
        exists element,
          element ∈ GoList.elems (idleInstance s) /\
          id = model.Id (heap s (GoList.Value element)))) /\
    TotalIdleInstance (Stats s')
      = TotalIdleInstance (Stats s) - Z.of_nat (length started).
Proof.
  intros Hwf. unfold gcLoop_tick.
  destruct (gcLoop_rounds_evictions _ clock s Hwf eq_refl) as
    (s' & started & Hrun & Hheap & _ & _ & Hle & Hpool & Hall & _).
  destruct (gcLoop_rounds_frame _ _ _ _ _ Hrun) as (Hw & Hc & Hn & _ & _ & Hreg).
  exists s', started. split; [exact Hrun|]. split; [exact Hheap|].
  split; [exact Hw|]. split; [exact Hc|]. split; [exact Hn|]. split.
  - intros id. destruct (Hreg id) as [Heq|[Hnone (d & q & Hin & Hid)]]; [now left|].
    right. split; [exact Hnone|].
    apply list_elem_of_lookup in Hin as [k Hk].
    destruct (Hall k _ Hk) as (element & Hlook & Hg & _).
    exists element. split; [eapply list_elem_of_lookup_2, Hlook|].
    inversion Hg; subst. reflexivity.
  - unfold Stats, GoList.Len. simpl. rewrite Hpool, length_take. lia.
Qed.

Lemma gcLoop_leaves_the_rest_witness :
  GoList.wf (idleInstance demo_warm) /\
  exists s' started,
    gcLoop_tick (fun _ => 400000000000) demo_warm = Returns (s', started) /\
    heap s' = heap demo_warm /\
    longPollingList s' = longPollingList demo_warm /\
    TotalIdleInstance (Stats s')
      = TotalIdleInstance (Stats demo_warm) - Z.of_nat (length started).
Proof.
  assert (Hwf : GoList.wf (idleInstance demo_warm))
    by apply GoList_wf_PushFront, GoList_wf_New.
  split; [exact Hwf|].
  destruct (gcLoop_leaves_the_rest (fun _ => 400000000000) demo_warm Hwf)
    as (s' & started & Hrun & Hheap & Hw & _ & _ & _ & Hstats).
  now exists s', started.
Defined.

(** ** getCurrentRequestBNum and AssignStart: what the scans do *)

Lemma GoList_unlink_length {A : Type} (es : list (GoList.Element A))
    (e : GoList.Element A) :
  e ∈ es -> length (GoList.unlink (GoList.eid e) es) = Nat.pred (length es).
Proof.
  induction es as [|x es IH]; intros Hin; [now apply elem_of_nil in Hin|].
  simpl. destruct (Nat.eqb_spec (GoList.eid x) (GoList.eid e)) as [_|Hne].
  - reflexivity.
  - apply elem_of_cons in Hin as [->|Hin]; [congruence|].
    simpl. rewrite IH by exact Hin. destruct es; [now apply elem_of_nil in Hin|].
    reflexivity.
Qed.

(** The scan of [getCurrentRequestBNum] from position [i]: it finds no
    expired entry and returns the list untouched, or it removes the first
    expired entry and returns at once. *)
Lemma getCurrentRequestBNum_scan_outcome (costTime : time.Duration)
    (l : GoList.List time.Time) :
  GoList.wf l ->
  forall (k fuel : nat) (clock : nat -> time.Time) (i : nat) e,
    GoList.elems l !! i = Some e ->
    length (GoList.elems l) = (i + k)%nat ->
    (k < fuel)%nat ->
    (getCurrentRequestBNum_scan fuel clock costTime (Some e) l = Returns l /\
     forall j e', GoList.elems l !! (i + j)%nat = Some e' ->
       time.Since (clock j) (GoList.Value e') <= costTime) \/
    (exists j e',
       GoList.elems l !! (i + j)%nat = Some e' /\
       costTime < time.Since (clock j) (GoList.Value e') /\
       (forall j' e'', (j' < j)%nat -> GoList.elems l !! (i + j')%nat = Some e'' ->
          time.Since (clock j') (GoList.Value e'') <= costTime) /\
       getCurrentRequestBNum_scan fuel clock costTime (Some e) l
         = Returns (GoList.Remove e' l)).
Proof.
  intros Hwf.
  induction k as [|k IH]; intros fuel clock i e Hi Hlen Hfuel.
  - apply lookup_lt_Some in Hi. lia.
  - destruct fuel as [|fuel]; [lia|]. destruct fuel as [|fuel]; [lia|].
    cbn [getCurrentRequestBNum_scan].
    destruct (Z.ltb_spec costTime (time.Since (clock O) (GoList.Value e)))
      as [Hexp|Hfresh].
    + right. exists O, e. rewrite Nat.add_0_r.
      split; [exact Hi|]. split; [exact Hexp|]. split; [intros; lia|].
      now rewrite GoList_Next_removed.
    + unfold GoList.Next.
      rewrite (GoList_successor_lookup _ i) by (apply Hwf || exact Hi).
      destruct k as [|k].
      * rewrite lookup_ge_None_2 by lia. left. split; [reflexivity|].
        intros j e' Hj. apply lookup_lt_Some in Hj as Hlt.
        replace j with O in * by lia. rewrite Nat.add_0_r in Hj. congruence.
      * destruct (lookup_lt_is_Some_2 (GoList.elems l) (S i)) as [e2 He2]; [lia|].
        rewrite He2.
        destruct (IH (S fuel) (fun k => clock (S k)) (S i) e2 He2)
          as [[Hret Hall]|(j & e' & Hj & Hexp & Hbefore & Hret)]; [lia|lia| |].
        -- left. split; [exact Hret|]. intros j e' Hj. destruct j as [|j].
           ++ rewrite Nat.add_0_r in Hj. congruence.
           ++ apply (Hall j).
              now replace (S i + j)%nat with (i + S j)%nat by lia.
        -- right. exists (S j), e'.
           replace (i + S j)%nat with (S i + j)%nat by lia.
           split; [exact Hj|]. split; [exact Hexp|]. split; [|exact Hret].
           intros j' e'' Hlt Hj'. destruct j' as [|j'].
           ++ rewrite Nat.add_0_r in Hj'. congruence.
           ++ apply (Hbefore j'); [lia|].
              now replace (S i + j')%nat with (i + S j')%nat by lia.
Qed.

(** X12: [getCurrentRequestBNum] always returns, with the length of the
    list it leaves, and leaves [maxRequestNum] at the maximum of its old
    value and that length.  It removes at most one entry: when no entry is
    older than [requestCostTime] at the round that reads it, the list is
    untouched; otherwise exactly the first such entry is removed, the scan
    ends there, and the entries behind it stay, expired or not. *)
Theorem getCurrentRequestBNum_prunes_one (clock : nat -> time.Time)
    (r : RuntimeStatus) :
  GoList.wf (requestInstance r) ->
  exists r' requestNum,
    getCurrentRequestBNum clock r = Returns (r', requestNum) /\
    requestNum = GoList.Len (requestInstance r') /\
    maxRequestNum r' = Z.max (maxRequestNum r) requestNum /\
    requestCostTime r' = requestCostTime r /\
    ((requestInstance r' = requestInstance r /\
      forall j e, GoList.elems (requestInstance r) !! j = Some e ->
        time.Since (clock j) (GoList.Value e) <= requestCostTime r) \/
     (exists j e,
        GoList.elems (requestInstance r) !! j = Some e /\
        requestCostTime r < time.Since (clock j) (GoList.Value e) /\
        (forall j' e', (j' < j)%nat ->
           GoList.elems (requestInstance r) !! j' = Some e' ->
           time.Since (clock j') (GoList.Value e') <= requestCostTime r) /\
        requestInstance r' = GoList.Remove e (requestInstance r) /\
        requestNum = GoList.Len (requestInstance r) - 1)).
Proof.
  intros Hwf. unfold getCurrentRequestBNum, GetRequestCostTime.
  set (l := requestInstance r) in *.
  assert (Hmax : forall m n : Z, (if m <? n then n else m) = Z.max m n).
  { intros m n. destruct (Z.ltb_spec m n); lia. }
  destruct (GoList.Front l) as [e|] eqn:Hfront.
  - assert (H0 : GoList.elems l !! O = Some e)
      by (unfold GoList.Front in Hfront; now rewrite head_lookup in Hfront).
    destruct (getCurrentRequestBNum_scan_outcome (requestCostTime r) l Hwf
                (length (GoList.elems l)) (S (length (GoList.elems l))) clock O e
                H0 eq_refl (Nat.lt_succ_diag_r _))
      as [[Hret Hall]|(j & e' & Hj & Hexp & Hbefore & Hret)]; rewrite Hret.
    + do 2 eexists. split; [reflexivity|]. simpl. split; [reflexivity|].
      split; [apply Hmax|]. split; [reflexivity|]. left. split; [reflexivity|].
      exact Hall.
    + do 2 eexists. split; [reflexivity|]. simpl. split; [reflexivity|].
      split; [apply Hmax|]. split; [reflexivity|]. right.
      exists j, e'. simpl in Hj, Hbefore.
      split; [exact Hj|]. split; [exact Hexp|]. split; [exact Hbefore|].
      split; [reflexivity|].
      unfold GoList.Len, GoList.Remove. simpl.
      rewrite GoList_unlink_length by (eapply list_elem_of_lookup_2, Hj).
      apply lookup_lt_Some in Hj. lia.
  - apply GoList_Front_None in Hfront as Hnil. rewrite Hnil. simpl.
    do 2 eexists. split; [reflexivity|]. simpl. split; [reflexivity|].
    split; [apply Hmax|]. split; [reflexivity|]. left. split; [reflexivity|].
    intros j e Hj. now rewrite lookup_nil in Hj.
Qed.

Lemma getCurrentRequestBNum_prunes_one_witness :
  GoList.wf (requestInstance demo_status) /\
  exists r' requestNum,
    getCurrentRequestBNum (fun _ => 2001) demo_status = Returns (r', requestNum) /\
    requestNum = GoList.Len (requestInstance r') /\
    maxRequestNum r' = Z.max (maxRequestNum demo_status) requestNum.
Proof.
  assert (Hwf : GoList.wf (requestInstance demo_status))
    by apply GoList_wf_PushBack, GoList_wf_PushBack, GoList_wf_New.
  split; [exact Hwf|].
  destruct (getCurrentRequestBNum_prunes_one (fun _ => 2001) demo_status Hwf)
    as (r' & n & Hrun & Hn & Hmax & _).
  now exists r', n.
Defined.

(** The scan of [AssignStart] from position [i] over a list that ends with
    [timeStamp], when no entry that it reads is expired. *)
Lemma AssignStart_scan_no_expiry (costTime : time.Duration) (timeStamp : time.Time)
    (l : GoList.List time.Time) :
  GoList.wf l ->
  (exists e, GoList.Back l = Some e /\ GoList.Value e = timeStamp) ->
  forall (k fuel : nat) (clock : nat -> time.Time) (i : nat) e,
    GoList.elems l !! i = Some e ->
    length (GoList.elems l) = (i + k)%nat ->
    (k < fuel)%nat ->
    (forall j e', GoList.elems l !! (i + j)%nat = Some e' ->
       GoList.Value e' <> timeStamp ->
       time.Since (clock j) (GoList.Value e') <= costTime) ->
    AssignStart_scan fuel clock costTime timeStamp (Some e) l = Returns l.
Proof.
  intros Hwf (eT & HeT & HvT).
  induction k as [|k IH]; intros fuel clock i e Hi Hlen Hfuel Hfresh.
  - apply lookup_lt_Some in Hi. lia.
  - destruct fuel as [|fuel]; [lia|]. cbn [AssignStart_scan].
    destruct (Z.eqb_spec (GoList.Value e) timeStamp) as [_|Hne]; [reflexivity|].
    destruct k as [|k].
    + exfalso. apply Hne. unfold GoList.Back in HeT. rewrite last_lookup in HeT.
      replace (Nat.pred (length (GoList.elems l))) with i in HeT by lia.
      congruence.
    + assert (Hnow : (costTime <? time.Since (clock O) (GoList.Value e)) = false).
      { apply Z.ltb_ge. apply (Hfresh O); [now rewrite Nat.add_0_r|exact Hne]. }
      rewrite Hnow. unfold GoList.Next.
      rewrite (GoList_successor_lookup _ i) by (apply Hwf || exact Hi).
      destruct (lookup_lt_is_Some_2 (GoList.elems l) (S i)) as [e2 He2]; [lia|].
      rewrite He2. apply (IH _ _ (S i)); [exact He2|lia|lia|].
      intros j e' Hj Hne'. apply (Hfresh (S j)); [|exact Hne'].
      now replace (i + S j)%nat with (S i + j)%nat by lia.
Qed.

(** X13: when no in-flight entry is older than [requestCostTime] at the
    round of the scan that reads it, [AssignStart] returns: the in-flight
    list is the old one with [timeStamp] appended at the back, nothing is
    removed, [maxRequestNum] is the maximum of its old value and the new
    length, so it does not decrease, and the duration map and the estimate
    are untouched.  This holds in particular for the first call, on an
    empty list. *)
Theorem AssignStart_without_expiry (clock : nat -> time.Time)
    (timeStamp : time.Time) (r : RuntimeStatus) :
  GoList.wf (requestInstance r) ->
  (forall j e, GoList.elems (requestInstance r) !! j = Some e ->
     time.Since (clock j) (GoList.Value e) <= requestCostTime r) ->
  exists r',
    AssignStart clock timeStamp r = Returns r' /\
    requestInstance r' = GoList.PushBack timeStamp (requestInstance r) /\
    maxRequestNum r' = Z.max (maxRequestNum r) (GoList.Len (requestInstance r) + 1) /\
    maxRequestNum r <= maxRequestNum r' /\
    requestCostTime r' = requestCostTime r /\
    requestDuration r' = requestDuration r.
Proof.
  intros Hwf Hfresh. unfold AssignStart, GetRequestCostTime.
  set (l := GoList.PushBack timeStamp (requestInstance r)).
  assert (Hwfl : GoList.wf l) by now apply GoList_wf_PushBack.
  assert (Hfront : exists e, GoList.Front l = Some e).
  { unfold GoList.Front, l. simpl.
    destruct (GoList.elems (requestInstance r)); simpl; eauto. }
  destruct Hfront as [e Hfront]. rewrite Hfront.
  rewrite (AssignStart_scan_no_expiry (requestCostTime r) timeStamp l Hwfl)
    with (k := length (GoList.elems l)) (i := O).
  - eexists. split; [reflexivity|]. simpl. split; [reflexivity|].
    unfold l. rewrite GoList_Len_PushBack.
    destruct (Z.ltb_spec (maxRequestNum r) (GoList.Len (requestInstance r) + 1));
      repeat split; lia.
  - eexists. split; [apply GoList_Back_PushBack|reflexivity].
  - unfold GoList.Front in Hfront. now rewrite head_lookup in Hfront.
  - reflexivity.
  - lia.
  - intros j e' Hj Hne. simpl in Hj. unfold l in Hj. simpl in Hj.
    apply lookup_app_Some in Hj as [Hj|[Hge Hj]].
    + now apply Hfresh.
    + apply list_lookup_singleton_Some in Hj as [_ <-]. now contradiction Hne.
Qed.

Lemma AssignStart_without_expiry_witness :
  GoList.wf (requestInstance demo_status) /\
  (forall j e, GoList.elems (requestInstance demo_status) !! j = Some e ->
     time.Since ((fun _ => 900) j) (GoList.Value e) <= requestCostTime demo_status) /\
  exists r',
    AssignStart (fun _ => 900) 1600 demo_status = Returns r' /\
    requestInstance r' = GoList.PushBack 1600 (requestInstance demo_status) /\
    maxRequestNum r' = 3.
Proof.
  assert (Hwf : GoList.wf (requestInstance demo_status))
    by apply GoList_wf_PushBack, GoList_wf_PushBack, GoList_wf_New.
  assert (Hfresh : forall j e,
            GoList.elems (requestInstance demo_status) !! j = Some e ->
            time.Since ((fun _ => 900) j) (GoList.Value e)
              <= requestCostTime demo_status).
  { intros j e Hj. destruct j as [|[|j]]; simpl in Hj.
    - inversion Hj; subst. vm_compute. discriminate.
    - inversion Hj; subst. vm_compute. discriminate.
    - discriminate. }
  split; [exact Hwf|]. split; [exact Hfresh|].
  destruct (AssignStart_without_expiry (fun _ => 900) 1600 demo_status Hwf Hfresh)
    as (r' & Hrun & Hlist & Hmax & _).
  exists r'. split; [exact Hrun|]. split; [exact Hlist|]. exact Hmax.
Defined.

(** ** AssignReturn and IdleStart: what is measured *)

(** X14: [IdleStart] measures from the latest [AssignReturn] of the same
    request id: after any run of [AssignReturn] calls the duration map holds,
    for each id, the instant of the latest call for that id (calls for other
    ids do not matter), and the entry that was there before when there was
    no call.  [IdleStart] removes nothing from the map, so on a new
    estimator the first [IdleStart] sets [requestCostTime] to the time since
    that instant, and to the time since the zero instant for an id that was
    never returned. *)
Theorem IdleStart_measures_latest_return (events : list (string * time.Time))
    (r : RuntimeStatus) (requestId : string) (now : time.Time) :
  requestDuration (AssignReturn_all events r) !! requestId
    = latest requestId events (requestDuration r !! requestId) /\
  requestDuration (IdleStart now requestId (AssignReturn_all events r))
    = requestDuration (AssignReturn_all events r) /\
  requestCostTime (IdleStart now requestId (AssignReturn_all events NewRuntimeStatus))
    = time.Since now (default time.zero (latest requestId events None)).
Proof.
  assert (Hmap : forall (evs : list (string * time.Time)) (r0 : RuntimeStatus),
            requestDuration (AssignReturn_all evs r0) !! requestId
            = latest requestId evs (requestDuration r0 !! requestId)).
  { induction evs as [|[id t] evs IH]; intros r0; [reflexivity|].
    unfold AssignReturn_all in *. simpl. rewrite IH. simpl.
    destruct (String.eqb_spec id requestId) as [->|Hne].
    - now rewrite lookup_insert_eq.
    - now rewrite lookup_insert_ne. }
  assert (Hcost : forall (evs : list (string * time.Time)) (r0 : RuntimeStatus),
            requestCostTime (AssignReturn_all evs r0) = requestCostTime r0).
  { induction evs as [|[id t] evs IH]; intros r0; [reflexivity|].
    unfold AssignReturn_all in *. simpl. now rewrite IH. }
  split; [apply Hmap|]. split; [reflexivity|].
  unfold IdleStart. simpl. rewrite Hcost, Hmap. reflexivity.
Qed.

(** The scan of [AssignStart] from position [i] over a list that ends with
    [timeStamp]: it returns the list untouched, or it has met an entry
    older than [costTime] and panics. *)
Lemma AssignStart_scan_cases (costTime : time.Duration) (timeStamp : time.Time)
    (l : GoList.List time.Time) :
  GoList.wf l ->
  (exists e, GoList.Back l = Some e /\ GoList.Value e = timeStamp) ->
  forall (k fuel : nat) (clock : nat -> time.Time) (i : nat) e,
    GoList.elems l !! i = Some e ->
    length (GoList.elems l) = (i + k)%nat ->
    (k < fuel)%nat ->
    AssignStart_scan fuel clock costTime timeStamp (Some e) l = Returns l \/
    (exists j e',
       GoList.elems l !! (i + j)%nat = Some e' /\
       GoList.Value e' <> timeStamp /\
       costTime < time.Since (clock j) (GoList.Value e') /\
       AssignStart_scan fuel clock costTime timeStamp (Some e) l = Panics).
Proof.
  intros Hwf (eT & HeT & HvT).
  induction k as [|k IH]; intros fuel clock i e Hi Hlen Hfuel.
  - apply lookup_lt_Some in Hi. lia.
  - destruct fuel as [|fuel]; [lia|]. cbn [AssignStart_scan].
    destruct (Z.eqb_spec (GoList.Value e) timeStamp) as [_|Hne]; [now left|].
    destruct k as [|k].
    + exfalso. apply Hne. unfold GoList.Back in HeT. rewrite last_lookup in HeT.
      replace (Nat.pred (length (GoList.elems l))) with i in HeT by lia.
      congruence.
    + destruct fuel as [|fuel]; [lia|].
      destruct (Z.ltb_spec costTime (time.Since (clock O) (GoList.Value e)))
        as [Hexp|Hfresh].
      * right. exists O, e. rewrite Nat.add_0_r.
        split; [exact Hi|]. split; [exact Hne|]. split; [exact Hexp|].
        now rewrite GoList_Next_removed.
      * unfold GoList.Next.
        rewrite (GoList_successor_lookup _ i) by (apply Hwf || exact Hi).
        destruct (lookup_lt_is_Some_2 (GoList.elems l) (S i)) as [e2 He2]; [lia|].
        rewrite He2.
        destruct (IH (S fuel) (fun k => clock (S k)) (S i) e2 He2)
          as [Hret|(j & e' & Hj & Hne' & Hexp & Hpanic)]; [lia|lia| |].
        -- now left.
        -- right. exists (S j), e'.
           replace (i + S j)%nat with (S i + j)%nat by lia.
           now repeat split.
Qed.

(** X15: [AssignStart] never returns with an entry pruned.  Either it
    returns, and the in-flight list is the old one with [timeStamp] appended
    and [maxRequestNum] the maximum of its old value and the new length; or
    it panics, and then some entry of the old list, other than [timeStamp],
    was older than [requestCostTime] at the round that read it. *)
Theorem AssignStart_returns_or_panics (clock : nat -> time.Time)
    (timeStamp : time.Time) (r : RuntimeStatus) :
  GoList.wf (requestInstance r) ->
  (exists r',
     AssignStart clock timeStamp r = Returns r' /\
     requestInstance r' = GoList.PushBack timeStamp (requestInstance r) /\
     maxRequestNum r' = Z.max (maxRequestNum r) (GoList.Len (requestInstance r) + 1)) \/
  (AssignStart clock timeStamp r = Panics /\
   exists j e,
     GoList.elems (requestInstance r) !! j = Some e /\
     GoList.Value e <> timeStamp /\
     requestCostTime r < time.Since (clock j) (GoList.Value e)).
Proof.
  intros Hwf. unfold AssignStart, GetRequestCostTime.
  set (l := GoList.PushBack timeStamp (requestInstance r)).
  assert (Hwfl : GoList.wf l) by now apply GoList_wf_PushBack.
  assert (Hfront : exists e, GoList.Front l = Some e).
  { unfold GoList.Front, l. simpl.
    destruct (GoList.elems (requestInstance r)); simpl; eauto. }
  destruct Hfront as [e Hfront]. rewrite Hfront.
  destruct (AssignStart_scan_cases (requestCostTime r) timeStamp l Hwfl)
    with (k := length (GoList.elems l)) (fuel := S (length (GoList.elems l)))
         (clock := clock) (i := O) (e := e)
    as [Hret|(j & e' & Hj & Hne & Hexp & Hpanic)].
  - eexists. split; [apply GoList_Back_PushBack|reflexivity].
  - unfold GoList.Front in Hfront. now rewrite head_lookup in Hfront.
  - reflexivity.
  - lia.
  - rewrite Hret. left. eexists. split; [reflexivity|]. simpl.
    split; [reflexivity|]. unfold l. rewrite GoList_Len_PushBack.
    destruct (Z.ltb_spec (maxRequestNum r) (GoList.Len (requestInstance r) + 1)); lia.
  - rewrite Hpanic. right. split; [reflexivity|]. exists j, e'.
    simpl in Hj. unfold l in Hj. simpl in Hj.
    apply lookup_app_Some in Hj as [Hj|[Hge Hj]].
    + now repeat split.
    + apply list_lookup_singleton_Some in Hj as [_ <-]. now contradiction Hne.
Qed.

Lemma AssignStart_returns_or_panics_witness :
  GoList.wf (requestInstance demo_status) /\
  AssignStart (fun _ => 2001) 2000 demo_status = Panics /\
  exists j e,
    GoList.elems (requestInstance demo_status) !! j = Some e /\
    GoList.Value e <> 2000 /\
    requestCostTime demo_status < time.Since ((fun _ => 2001) j) (GoList.Value e).
Proof.
  assert (Hwf : GoList.wf (requestInstance demo_status))
    by apply GoList_wf_PushBack, GoList_wf_PushBack, GoList_wf_New.
  split; [exact Hwf|].
  destruct (AssignStart_returns_or_panics (fun _ => 2001) 2000 demo_status Hwf)
    as [(r' & Hrun & _)|Hpanic].
  - exfalso. vm_compute in Hrun. discriminate.
  - exact Hpanic.
Defined.

(** ** Idle with NeedDestroy on an idle instance *)

(** X16: for an instance that sits at the front of the idle pool, an [Idle]
    that asks for its destruction calls [DestroySLot] for its slot and
    returns the [Ok] reply, and the instance stays in the idle pool: the
    next [Assign] returns its id. *)
Theorem Idle_destroy_idle_instance (ctx : Context) (now : time.Time)
    (request : pb.IdleRequest) (request' : pb.AssignRequest)
    (a : pb.Assignment) (element : GoList.Element ptr) (s : Simple) :
  pb.Assigment request = Some a ->
  wantsDestroy request = true ->
  GoList.Front (idleInstance s) = Some element ->
  instances s !! pb.InstanceId a = Some (GoList.Value element) ->
  exists s' started,
    Idle ctx request s =
      (s, inr (pb.mkIdleReply pb.Status_Ok None), [go_IdleStart (Some a)],
       [call_DestroySLot ctx (pb.RequestId a)
          (model.Slot_Id (model.Slot_ (heap s (GoList.Value element))))
          (reason_text "bad instance")]) /\
    Assign now request' s =
      (s',
       Assign_returned
         (pb.mkAssignReply pb.Status_Ok
            (Some (pb.mkAssignment (pb.AssignRequest_RequestId request')
                     (pb.Key (model.Meta (heap s (GoList.Value element))))
                     (model.Id (heap s (GoList.Value element)))))
            None),
       started) /\
    instances s' = instances s.
Proof.
  intros Ha Hd Hfront Hreg. do 2 eexists. split; [|split].
  - unfold Idle, deleteSlot. now rewrite Ha, Hd, Hreg.
  - unfold Assign. rewrite Hfront. unfold assignReply. simpl.
    rewrite store_same. reflexivity.
  - reflexivity.
Qed.

Lemma Idle_destroy_idle_instance_witness :
  exists s' started,
    Idle Background
      (pb.mkIdleRequest (Some (pb.mkAssignment "r1" "app-1" "i-1"))
         (Some (pb.mkResult (Some true)))) demo_warm =
      (demo_warm, inr (pb.mkIdleReply pb.Status_Ok None),
       [go_IdleStart (Some (pb.mkAssignment "r1" "app-1" "i-1"))],
       [call_DestroySLot Background "r1" "slot-1" (reason_text "bad instance")]) /\
    Assign 110 (demo_request "r2") demo_warm =
      (s',
       Assign_returned
         (pb.mkAssignReply pb.Status_Ok (Some (pb.mkAssignment "r2" "app-1" "i-1")) None),
       started) /\
    instances s' = instances demo_warm.
Proof.
  exact (Idle_destroy_idle_instance Background 110
           (pb.mkIdleRequest (Some (pb.mkAssignment "r1" "app-1" "i-1"))
              (Some (pb.mkResult (Some true))))
           (demo_request "r2") (pb.mkAssignment "r1" "app-1" "i-1")
           (GoList.mkElement O O) demo_warm eq_refl eq_refl eq_refl eq_refl).
Defined.

(** ** notifyRequest does not block *)

Lemma waiters_ready_Assign (now : time.Time) (request : pb.AssignRequest)
    (s : Simple) :
  waiters_ready s -> waiters_ready (fst (fst (Assign now request s))).
Proof.
  intros [Hnd Hall]. unfold Assign.
  destruct (GoList.Front (idleInstance s)); [split; assumption|].
  unfold waiters_ready. cbn -[Nat.eqb]. rewrite map_app. simpl map. split.
  - apply NoDup_app. split; [exact Hnd|]. split; [|apply NoDup_singleton].
    intros c Hc Hin. apply list_elem_of_singleton in Hin. subst c.
    apply list_elem_of_fmap in Hc as (e & He & Hin).
    rewrite Forall_forall in Hall. destruct (Hall e Hin) as [_ Hlt]. lia.
  - apply Forall_app. split.
    + eapply Forall_impl; [exact Hall|]. cbn -[Nat.eqb]. intros e [Hempty Hlt].
      destruct (Nat.eqb_spec (GoList.Value e) (next_chan s)); [lia|].
      split; [exact Hempty|lia].
    + constructor; [|constructor]. cbn -[Nat.eqb]. rewrite Nat.eqb_refl.
      split; [reflexivity|lia].
Qed.

Lemma waiters_ready_notifyRequest (now : time.Time) (p : ptr) (s : Simple) :
  waiters_ready s ->
  exists s', notifyRequest now p s = Returns s' /\ waiters_ready s'.
Proof.
  intros [Hnd Hall]. unfold notifyRequest.
  destruct (GoList.Front (longPollingList s)) as [e|] eqn:Hfront.
  - pose proof (GoList_Remove_Front _ _ Hfront) as Hrem.
    unfold GoList.Front in Hfront.
    destruct (GoList.elems (longPollingList s)) as [|x rest] eqn:Hes; [discriminate|].
    inversion Hfront; subst x. simpl in Hrem.
    apply Forall_cons in Hall as [[Hempty _] Hrest].
    simpl in Hnd. apply NoDup_cons in Hnd as [Hfirst Hnd].
    unfold chan_send. cbn -[Nat.eqb]. rewrite Hempty.
    eexists. split; [reflexivity|]. unfold waiters_ready. cbn -[Nat.eqb].
    rewrite Hrem. split; [exact Hnd|].
    rewrite Forall_forall in Hrest |- *. intros e' Hin.
    destruct (Hrest e' Hin) as [Hempty' Hlt]. split; [|exact Hlt].
    destruct (Nat.eqb_spec (GoList.Value e') (GoList.Value e)) as [Heq|_];
      [|exact Hempty'].
    exfalso. apply Hfirst. rewrite <- Heq. apply list_elem_of_fmap. now exists e'.
  - eexists. split; [reflexivity|]. split; assumption.
Qed.

Lemma waiters_ready_Assign_recv (request : pb.AssignRequest) (c : chan)
    (s s' : Simple) (reply : pb.AssignReply) (started : list Go) :
  waiters_ready s ->
  Assign_recv request c s = Some (s', reply, started) ->
  waiters_ready s'.
Proof.
  intros [Hnd Hall]. unfold Assign_recv, chan_recv.
  destruct (chans s c) as [|p rest] eqn:Hc; [discriminate|].
  intros Hrun. inversion Hrun; subst. clear Hrun.
  unfold waiters_ready. cbn -[Nat.eqb]. split; [exact Hnd|].
  eapply Forall_impl; [exact Hall|]. cbn -[Nat.eqb]. intros e [Hempty Hlt].
  split; [|exact Hlt].
  destruct (Nat.eqb_spec (GoList.Value e) c) as [Heq|_]; [|exact Hempty].
  rewrite Heq in Hempty. congruence.
Qed.

(** X17: [notifyRequest] never blocks on its send.  The waiter channels in
    the queue are pairwise distinct and empty in a new scaler, and [Assign],
    the receiving [Assign], [notifyRequest], a round of [gcLoop] and
    [createInstance] all keep them so; and whenever they are so,
    [notifyRequest] returns. *)
Theorem notifyRequest_never_blocks :
  (forall metaData cfg, waiters_ready (New metaData cfg)) /\
  (forall now request s,
     waiters_ready s -> waiters_ready (fst (fst (Assign now request s)))) /\
  (forall now p s,
     waiters_ready s ->
     exists s', notifyRequest now p s = Returns s' /\ waiters_ready s') /\
  (forall request c s s' reply started,
     waiters_ready s ->
     Assign_recv request c s = Some (s', reply, started) ->
     waiters_ready s') /\
  (forall now s, waiters_ready s -> waiters_ready (fst (gcLoop_round now s))) /\
  (forall (client : Client) creatingTime endTime instanceId requestMeta requestId
          s s' calls started,
     waiters_ready s ->
     @createInstance client creatingTime endTime instanceId requestMeta requestId s
       = Returns (s', calls, started) ->
     waiters_ready s').
Proof.
  split; [|split; [|split; [|split; [|split]]]].
  - intros metaData cfg. split; simpl; constructor.
  - apply waiters_ready_Assign.
  - apply waiters_ready_notifyRequest.
  - intros request c s s' reply started. apply waiters_ready_Assign_recv.
  - intros now s Hready. unfold gcLoop_round.
    destruct (GoList.Back (idleInstance s)); [|exact Hready].
    destruct (_ <? _); exact Hready.
  - intros client creatingTime endTime instanceId requestMeta requestId
      s s' calls started Hready. unfold createInstance.
    destruct requestMeta as [requestMeta|]; [|discriminate].
    destruct (CreateSlot requestId _) as [e|slot].
    + intros Hrun. inversion Hrun; subst. exact Hready.
    + destruct (Init requestId instanceId slot _) as [e|created].
      * intros Hrun. inversion Hrun; subst. exact Hready.
      * intros Hrun. inversion Hrun; subst. exact Hready.
Qed.

Lemma notifyRequest_never_blocks_witness :
  waiters_ready demo_waiting /\
  exists s', notifyRequest 60 O demo_waiting = Returns s' /\ waiters_ready s'.
Proof.
  assert (Hready : waiters_ready demo_waiting).
  { apply (proj1 (proj2 notifyRequest_never_blocks)).
    split; simpl; constructor. }
  split; [exact Hready|].
  exact (proj1 (proj2 (proj2 notifyRequest_never_blocks)) 60 O demo_waiting Hready).
Defined.
